(** * The neuro-symbolic classifier of claw-son-four-point-five

    A shallow embedding of
      implementation/src/models/neuro_symbolic_classifier.py
      implementation/src/core/base/__init__.py
    Python objects are records of their attributes, dictionaries are finite
    maps with string keys, a raised exception is the [Raise] result of a
    state-and-exception monad, and the calls into torch, numpy and sklearn
    are the fields of an interface record acting on the library's own state. *)

From Stdlib Require Import ZArith QArith String List Bool Lia.
From stdpp Require Import base gmap strings list pretty.
Import ListNotations.

Set Warnings "-register-all".
Local Open Scope string_scope.
Local Open Scope Z_scope.

(** ** Python values *)

(** A Python float: the finite values are kept exact, as reduced fractions
    (rounding is not modelled), the three special values are kept apart. *)
Inductive pyfloat : Type :=
| FFinite (q : Q)
| FPosInf
| FNegInf
| FNaN.

Definition isfinite (f : pyfloat) : bool :=
  match f with FFinite _ => true | _ => false end.

(** Addition of two floats ([total_loss += loss.item()]). *)
Definition fadd (a b : pyfloat) : pyfloat :=
  match a, b with
  | FNaN, _ | _, FNaN => FNaN
  | FPosInf, FNegInf | FNegInf, FPosInf => FNaN
  | FPosInf, _ | _, FPosInf => FPosInf
  | FNegInf, _ | _, FNegInf => FNegInf
  | FFinite x, FFinite y => FFinite (Qred (x + y))
  end.

Definition fzero : pyfloat := FFinite 0.

(** The values that configurations, facts and reasoning results hold.  A one
    dimensional numpy array or torch tensor is [PTensor]. *)
Inductive pyval : Type :=
| PNone
| PInt (z : Z)
| PFloat (f : pyfloat)
| PStr (s : string)
| PList (l : list pyval)
| PDict (d : gmap string pyval)
| PTensor (v : list pyfloat).

Abbreviation dict := (gmap string pyval).

(** [d.get(key)] and [d.get(key, dflt)]. *)
Definition dict_get (d : dict) (key : string) (dflt : pyval) : pyval :=
  default dflt (d !! key).

(** [v == s] for a string literal [s]. *)
Definition py_eq_str (v : pyval) (s : string) : bool :=
  match v with PStr t => String.eqb t s | _ => false end.

(** ** Exceptions *)

Inductive exn_class : Type :=
| TypeError | IndexError | KeyError | ValueError | AttributeError
| AssertionError | RuntimeError | ZeroDivisionError | UnboundLocalError.

Record exn : Type := Exn { exn_cls : exn_class; exn_msg : string }.

Inductive result (A : Type) : Type :=
| Ok (a : A)
| Raise (e : exn).
Arguments Ok {A} a.
Arguments Raise {A} e.

Definition is_ok {A} (r : result A) : bool :=
  match r with Ok _ => true | Raise _ => false end.

Definition rbind {A B} (r : result A) (k : A -> result B) : result B :=
  match r with Ok a => k a | Raise e => Raise e end.

(** ** Sequences: subscripting and length *)

(** [l[i]] on a Python list: a negative index counts from the end. *)
Definition list_index {A} (l : list A) (i : Z) : option A :=
  let n := Z.of_nat (length l) in
  if (0 <=? i) && (i <? n) then nth_error l (Z.to_nat i)
  else if (i <? 0) && (- n <=? i) then nth_error l (Z.to_nat (n + i))
  else None.

Definition string_chars (s : string) : list pyval :=
  map (fun c => PStr (String c EmptyString)) (list_ascii_of_string s).

(** [v[i]] *)
Definition py_subscript (v : pyval) (i : Z) : result pyval :=
  match v with
  | PList l =>
      match list_index l i with
      | Some x => Ok x
      | None => Raise (Exn IndexError "list index out of range")
      end
  | PStr s =>
      match list_index (string_chars s) i with
      | Some x => Ok x
      | None => Raise (Exn IndexError "string index out of range")
      end
  | PTensor t =>
      match list_index t i with
      | Some x => Ok (PFloat x)
      | None => Raise (Exn IndexError "index out of bounds")
      end
  | PDict _ => Raise (Exn KeyError "int key in a dict of string keys")
  | PNone | PInt _ | PFloat _ =>
      Raise (Exn TypeError "object is not subscriptable")
  end.

(** [len(v)] *)
Definition py_len (v : pyval) : result Z :=
  match v with
  | PList l => Ok (Z.of_nat (length l))
  | PStr s => Ok (Z.of_nat (String.length s))
  | PTensor t => Ok (Z.of_nat (length t))
  | PDict d => Ok (Z.of_nat (size d))
  | PNone | PInt _ | PFloat _ => Raise (Exn TypeError "object has no len()")
  end.

(** [range(n)] as the list of its values; empty when [n <= 0]. *)
Definition py_range (n : Z) : list Z :=
  map Z.of_nat (seq 0 (Z.to_nat n)).

(** ** Calling a function: binding arguments to parameters

    [bind_args f params args kwargs] binds the positional and the keyword
    arguments of a call to the parameter names of [f] (those after [self]),
    none of which has a default value in this program. *)
Fixpoint bind_positional (params : list string) (args : list pyval)
  : option (list (string * pyval) * list string) :=
  match args, params with
  | [], _ => Some ([], params)
  | _ :: _, [] => None
  | a :: args', p :: params' =>
      match bind_positional params' args' with
      | Some (bound, rest) => Some ((p, a) :: bound, rest)
      | None => None
      end
  end.

Definition mem_string (s : string) (l : list string) : bool :=
  existsb (String.eqb s) l.

Fixpoint bind_keywords (fname : string) (all_params : list string)
    (bound : list (string * pyval)) (kwargs : list (string * pyval))
  : result (list (string * pyval)) :=
  match kwargs with
  | [] => Ok bound
  | (k, v) :: kwargs' =>
      if negb (mem_string k all_params) then
        Raise (Exn TypeError
          (fname ++ "() got an unexpected keyword argument '" ++ k ++ "'"))
      else if mem_string k (map fst bound) then
        Raise (Exn TypeError
          (fname ++ "() got multiple values for argument '" ++ k ++ "'"))
      else bind_keywords fname all_params ((k, v) :: bound) kwargs'
  end.

Definition bind_args (fname : string) (params : list string)
    (args : list pyval) (kwargs : list (string * pyval))
  : result (list (string * pyval)) :=
  match bind_positional params args with
  | None =>
      Raise (Exn TypeError (fname ++ "() takes too many positional arguments"))
  | Some (bound, _) =>
      rbind (bind_keywords fname params bound kwargs) (fun bound' =>
        match List.filter (fun p => negb (mem_string p (map fst bound'))) params with
        | [] => Ok bound'
        | p :: _ =>
            Raise (Exn TypeError
              (fname ++ "() missing required positional argument: '" ++ p ++ "'"))
        end)
  end.

Definition bound_arg (bound : list (string * pyval)) (p : string) : pyval :=
  match find (fun kv => String.eqb (fst kv) p) bound with
  | Some kv => snd kv
  | None => PNone
  end.

(** ** Random generators

    A generator is the stream of standard normal samples it will deliver and
    the position reached in it; seeding a generator fixes the stream. *)
Record generator : Type := { samples : nat -> pyfloat; cursor : nat }.

Definition draw (n : nat) (g : generator) : list pyfloat * generator :=
  (map (samples g) (seq (cursor g) n),
   {| samples := samples g; cursor := (cursor g + n)%nat |}).

(** ** Tensors as data: the shape-level operations of torch *)

Abbreviation vec := (list pyfloat).
Abbreviation mat := (list (list pyfloat)).

(** [torch.zeros(n)] *)
Definition torch_zeros (n : Z) : result vec :=
  if n <? 0 then Raise (Exn RuntimeError "negative dimension")
  else Ok (repeat fzero (Z.to_nat n)).

(** [torch.randn(n)]: the next [n] samples of the default generator. *)
Definition torch_randn (n : Z) (g : generator) : result vec * generator :=
  if n <? 0 then (Raise (Exn RuntimeError "negative dimension"), g)
  else let '(v, g') := draw (Z.to_nat n) g in (Ok v, g').

Fixpoint stack_rows (width : nat) (l : list pyval) : result mat :=
  match l with
  | [] => Ok []
  | PTensor v :: l' =>
      if Nat.eqb (length v) width then
        rbind (stack_rows width l') (fun m => Ok (v :: m))
      else Raise (Exn RuntimeError "stack expects each tensor to be equal size")
  | _ :: _ => Raise (Exn TypeError "expected Tensor as element of the sequence")
  end.

(** [torch.stack(l)] for one dimensional tensors. *)
Definition torch_stack (l : list pyval) : result mat :=
  match l with
  | [] => Raise (Exn RuntimeError "stack expects a non-empty TensorList")
  | PTensor v :: _ => stack_rows (length v) l
  | _ :: _ => Raise (Exn TypeError "expected Tensor as element of the sequence")
  end.

Fixpoint cat_rows (a b : mat) : option mat :=
  match a, b with
  | [], [] => Some []
  | r :: a', s :: b' =>
      match cat_rows a' b' with
      | Some m => Some ((r ++ s)%list :: m)
      | None => None
      end
  | _, _ => None
  end.

(** [torch.cat([a, b], dim=1)] *)
Definition torch_cat_dim1 (a b : mat) : result mat :=
  match cat_rows a b with
  | Some m => Ok m
  | None => Raise (Exn RuntimeError "Sizes of tensors must match except in dimension 1")
  end.

(** ** core/base: BaseReasoner and the SimpleReasoner built on it *)

Module SimpleReasoner.

(** The attributes of an instance: [config] and [knowledge_base] are set
    by [BaseReasoner.__init__], [rules] and [output_size] by
    [SimpleReasoner.__init__]. *)
Record t : Type := {
  config : pyval;
  knowledge_base : pyval;
  rules : pyval;
  output_size : Z
}.

(** [config.get(key, dflt)] on a value that should be a dictionary. *)
Definition get_of (v : pyval) (key : string) (dflt : pyval) : result pyval :=
  match v with
  | PDict d => Ok (dict_get d key dflt)
  | _ => Raise (Exn AttributeError "object has no attribute 'get'")
  end.

(** [SimpleReasoner.__init__(self, config)] *)
Definition __init__ (cfg : pyval) : result t :=
  (* super().__init__(config) *)
  let self_config := cfg in
  let self_knowledge_base := PNone in
  rbind (get_of cfg "rules" (PList [])) (fun r =>
    Ok {| config := self_config;
          knowledge_base := self_knowledge_base;
          rules := r;
          output_size := 32 |}).

(** A call of the class, [SimpleReasoner(...)]: the arguments are bound to
    the one parameter [config] of [__init__] before its body runs. *)
Definition new (args : list pyval) (kwargs : list (string * pyval))
  : result t :=
  rbind (bind_args "SimpleReasoner.__init__" ["config"] args kwargs)
        (fun bound => __init__ (bound_arg bound "config")).

(** [get_output_size(self)] *)
Definition get_output_size (self : t) : Z := output_size self.

(** [reason(self, facts, query)]: the result dictionary, and the default
    generator after the call. *)
Definition reason (self : t) (facts : list dict) (query : string)
    (g : generator) : result dict * generator :=
  let results : dict :=
    <["facts" := PList (map PDict facts)]>
      (<["query" := PStr query]> (<["rules_applied" := PList []]> ∅)) in
  if String.eqb query "classify" then
    match torch_randn (output_size self) g with
    | (Ok v, g') => (Ok (<["features" := PTensor v]> results), g')
    | (Raise e, g') => (Raise e, g')
    end
  else if String.eqb query "explain_classification" then
    (Ok (<["confidence" := PFloat (FFinite (17 # 20))]>
          (<["steps" := PList [PStr "Analyze features"; PStr "Apply rules";
                               PStr "Conclude"]]>
            (<["rules_applied" := PList [PStr "rule_1"; PStr "rule_2"]]>
              results))), g)
  else (Ok results, g).

(** [list.extend(iterable)] *)
Definition py_extend (l : pyval) (x : pyval) : result pyval :=
  match l with
  | PList xs =>
      match x with
      | PList ys => Ok (PList (xs ++ ys))
      | PStr s => Ok (PList (xs ++ string_chars s))
      | PTensor v => Ok (PList (xs ++ map PFloat v))
      | PDict d => Ok (PList (xs ++ map (fun kv => PStr (fst kv)) (map_to_list d)))
      | PNone | PInt _ | PFloat _ =>
          Raise (Exn TypeError "object is not iterable")
      end
  | _ => Raise (Exn AttributeError "object has no attribute 'extend'")
  end.

(** [add_knowledge(self, knowledge)].  The list held by [self.rules] is the
    very object stored under ['rules'] in the configuration when that key
    is present, so extending it shows there as well. *)
Definition add_knowledge (self : t) (knowledge : dict) : result t :=
  rbind (py_extend (rules self) (dict_get knowledge "rules" (PList [])))
    (fun r =>
      Ok {| config :=
              match config self with
              | PDict d =>
                  match d !! "rules" with
                  | Some _ => PDict (<["rules" := r]> d)
                  | None => PDict d
                  end
              | c => c
              end;
            knowledge_base := knowledge_base self;
            rules := r;
            output_size := output_size self |}).

(** [explain_reasoning(self, reasoning_result)] *)
Definition explain_reasoning (reasoning_result : dict) : result string :=
  match reasoning_result !! "rules_applied" with
  | None => Raise (Exn KeyError "rules_applied")
  | Some ra =>
      rbind (py_len ra) (fun n =>
        match reasoning_result !! "steps" with
        | None => Raise (Exn KeyError "steps")
        | Some st =>
            rbind (py_len st) (fun m =>
              Ok ("Applied " ++ pretty n ++ " rules with " ++ pretty m
                  ++ " steps"))
        end)
  end.

(** The reasoners the program can hold: made by [__init__], then changed
    by [add_knowledge] only. *)
Inductive constructed : t -> Prop :=
| constructed_init cfg r : __init__ cfg = Ok r -> constructed r
| constructed_add r knowledge r' :
    constructed r -> add_knowledge r knowledge = Ok r' -> constructed r'.

End SimpleReasoner.

(** ** The libraries the classifier calls

    torch, numpy and sklearn are not part of the program.  A library call
    acts on the library's own state [Mem] (parameters, gradients, optimizer
    moments, train/eval flags) and on torch's default generator, and it may
    raise.  The program is embedded over an arbitrary [Library]. *)

Definition lib (Mem A : Type) : Type :=
  Mem * generator -> result A * (Mem * generator).

Record Library : Type := {
  Mem : Type;
  nn_Module : Type;
  Params : Type;
  Optimizer : Type;
  Criterion : Type;
  Dataset : Type;
  DataLoader : Type;
  Loss : Type;
  (* torch.nn constructors *)
  nn_Linear : pyval -> pyval -> lib Mem nn_Module;
  nn_ReLU : lib Mem nn_Module;
  nn_Dropout : pyfloat -> lib Mem nn_Module;
  nn_Sequential : list nn_Module -> lib Mem nn_Module;
  nn_MultiheadAttention : pyval -> Z -> lib Mem nn_Module;
  (* calling a module; [attention_call] returns the attended tensor *)
  module_call : nn_Module -> mat -> lib Mem mat;
  attention_call : nn_Module -> list mat -> list mat -> list mat -> lib Mem (list mat);
  (* what nn.Module defines under the names parameters, train and eval *)
  Module_parameters : lib Mem Params;
  Module_train : lib Mem unit;
  Module_eval : lib Mem unit;
  (* training *)
  optim_Adam : Params -> pyval -> lib Mem Optimizer;
  nn_CrossEntropyLoss : lib Mem Criterion;
  TensorDataset : mat -> list Z -> lib Mem Dataset;
  DataLoader_shuffled : Dataset -> pyval -> lib Mem DataLoader;
  dataloader_iter : DataLoader -> lib Mem (list (mat * list Z));
  dataloader_len : DataLoader -> Z;
  zero_grad : Optimizer -> lib Mem unit;
  criterion_call : Criterion -> mat -> list Z -> lib Mem Loss;
  backward : Loss -> lib Mem unit;
  step : Optimizer -> lib Mem unit;
  item : Loss -> pyfloat;
  (* inference *)
  torch_argmax_dim1 : mat -> result (list Z);
  torch_softmax_dim1 : mat -> result mat;
  (* gradient of the summed output of a module with respect to its input *)
  input_gradient : nn_Module -> mat -> lib Mem mat;
  (* numpy and sklearn.metrics *)
  np_mean_abs_axis0 : mat -> vec;
  np_argmax : vec -> result Z;
  np_max_axis1 : mat -> result vec;
  np_mean : vec -> pyfloat;
  accuracy_score : list Z -> list Z -> result pyfloat;
  precision_score : list Z -> list Z -> result pyfloat;
  recall_score : list Z -> list Z -> result pyfloat;
  f1_score : list Z -> list Z -> result pyfloat;
  (* str(v), as an f-string renders a value *)
  py_str : pyval -> string
}.

(** ** The monad of the program: state and exceptions

    The state holds the library state with torch's default generator, and
    numpy's global generator.  A raised exception leaves the state as it was
    when it was raised. *)

Record world (Mem : Type) : Type := {
  torch_mem : Mem;
  torch_generator : generator;
  numpy_generator : generator
}.
Arguments torch_mem {Mem} w.
Arguments torch_generator {Mem} w.
Arguments numpy_generator {Mem} w.

Definition M (L : Library) (A : Type) : Type :=
  world (Mem L) -> result A * world (Mem L).

Definition ret {L A} (a : A) : M L A := fun w => (Ok a, w).

Definition raise {L A} (e : exn) : M L A := fun w => (Raise e, w).

Definition bind {L A B} (c : M L A) (k : A -> M L B) : M L B :=
  fun w => match c w with
           | (Ok a, w') => k a w'
           | (Raise e, w') => (Raise e, w')
           end.

Declare Scope py_scope.
Delimit Scope py_scope with py.
Notation "x <- c ;; k" := (bind c (fun x => k))
  (at level 100, c at next level, right associativity) : py_scope.
Notation "c ;;; k" := (bind c (fun _ => k))
  (at level 100, right associativity) : py_scope.

(** A pure computation that may raise. *)
Definition of_result {L A} (r : result A) : M L A :=
  match r with Ok a => ret a | Raise e => raise e end.

(** A library call. *)
Definition call {L A} (c : lib (Mem L) A) : M L A :=
  fun w =>
    let '(r, (m, g)) := c (torch_mem w, torch_generator w) in
    (r, {| torch_mem := m; torch_generator := g;
           numpy_generator := numpy_generator w |}).

(** A computation on torch's default generator alone. *)
Definition with_torch_generator {L A}
    (c : generator -> result A * generator) : M L A :=
  fun w =>
    let '(r, g) := c (torch_generator w) in
    (r, {| torch_mem := torch_mem w; torch_generator := g;
           numpy_generator := numpy_generator w |}).

(** A computation on numpy's global generator alone. *)
Definition with_numpy_generator {L A}
    (c : generator -> A * generator) : M L A :=
  fun w =>
    let '(a, g) := c (numpy_generator w) in
    (Ok a, {| torch_mem := torch_mem w; torch_generator := torch_generator w;
              numpy_generator := g |}).

(** [for x in l: body x], threading an accumulator. *)
Section Loops.
Context {L : Library} {A S : Type} (body : S -> A -> M L S).

Fixpoint for_each_loop (l : list A) (s : S) : M L S :=
  match l with
  | [] => ret s
  | x :: l' => bind (body s x) (fun s' => for_each_loop l' s')
  end.

End Loops.

Definition for_each {L A S} (l : list A) (body : S -> A -> M L S) (s : S)
  : M L S :=
  for_each_loop body l s.

Definition fadd_int (f : pyfloat) (z : Z) : pyfloat :=
  fadd f (FFinite (inject_Z z)).

(** [a + b] on the numbers, strings and lists a configuration holds. *)
Definition py_add (a b : pyval) : result pyval :=
  match a, b with
  | PInt x, PInt y => Ok (PInt (x + y))
  | PFloat x, PInt y => Ok (PFloat (fadd_int x y))
  | PInt x, PFloat y => Ok (PFloat (fadd_int y x))
  | PFloat x, PFloat y => Ok (PFloat (fadd x y))
  | PStr x, PStr y => Ok (PStr (x ++ y))
  | PList x, PList y => Ok (PList (x ++ y))
  | _, _ => Raise (Exn TypeError "unsupported operand type(s) for +")
  end.

Local Open Scope py_scope.

(** ** AttentionFusion *)

Module AttentionFusion.

(** The attributes of an instance; [Mod] is the type of torch modules. *)
Record t (Mod : Type) : Type := {
  neural_size : pyval;
  symbolic_size : pyval;
  attention : Mod;
  output_layer : Mod
}.
Arguments neural_size {Mod} self : rename.
Arguments symbolic_size {Mod} self : rename.
Arguments attention {Mod} self : rename.
Arguments output_layer {Mod} self : rename.

Section WithLibrary.
Context {L : Library}.

(** [AttentionFusion.__init__(self, neural_size, symbolic_size, num_classes)];
    the number of heads is the constant 8. *)
Definition __init__ (neural_size symbolic_size num_classes : pyval)
  : M L (t (nn_Module L)) :=
  embed_dim <- of_result (py_add neural_size symbolic_size) ;;
  att <- call (nn_MultiheadAttention L embed_dim 8) ;;
  width <- of_result (py_add neural_size symbolic_size) ;;
  l1 <- call (nn_Linear L width (PInt 128)) ;;
  r <- call (nn_ReLU L) ;;
  d <- call (nn_Dropout L (FFinite (1 # 5))) ;;
  l2 <- call (nn_Linear L (PInt 128) num_classes) ;;
  out <- call (nn_Sequential L [l1; r; d; l2]) ;;
  ret {| neural_size := neural_size; symbolic_size := symbolic_size;
         attention := att; output_layer := out |}.

(** [t.unsqueeze(1)]: every row becomes a sequence of one token. *)
Definition unsqueeze1 (m : mat) : list mat := map (fun r => [r]) m.

(** [t.squeeze(1)] of a tensor whose sequences hold one token each. *)
Definition squeeze1 (t : list mat) : mat := map (fun s => List.concat s) t.

(** [forward(self, neural_features, symbolic_features)] *)
Definition forward (self : t (nn_Module L))
    (neural_features symbolic_features : mat) : M L mat :=
  combined <- of_result (torch_cat_dim1 neural_features symbolic_features) ;;
  let combined_reshaped := unsqueeze1 combined in
  attended <- call (attention_call L (attention self) combined_reshaped
                      combined_reshaped combined_reshaped) ;;
  let attended := squeeze1 attended in
  call (module_call L (output_layer self) attended).

End WithLibrary.
End AttentionFusion.

(** ** Inputs *)

(** A feature matrix: a two dimensional numpy array, or a pandas DataFrame,
    which also names its columns.  [ncols] is [X.shape[1]]. *)
Record features : Type := {
  columns : option (list string);
  ncols : nat;
  rows : mat
}.

(** [np.random.normal(loc, scale, n)]: the next [n] samples of numpy's
    generator, scaled and shifted. *)
Definition fnormal (loc scale : Q) (z : pyfloat) : pyfloat :=
  match z with
  | FFinite q => FFinite (Qred (loc + scale * q))
  | FPosInf => if Qle_bool 0 scale then FPosInf else FNegInf
  | FNegInf => if Qle_bool 0 scale then FNegInf else FPosInf
  | FNaN => FNaN
  end.

Definition np_random_normal (loc scale : Q) (n : nat) (g : generator)
  : vec * generator :=
  let '(zs, g') := draw n g in (map (fnormal loc scale) zs, g').

(** A flat array cut into rows of [width] entries. *)
Fixpoint reshape_rows (nrows width : nat) (v : vec) : mat :=
  match nrows with
  | O => []
  | S k => firstn width v :: reshape_rows k width (skipn width v)
  end.

Fixpoint vec_add (a b : vec) : vec :=
  match a, b with
  | x :: a', y :: b' => fadd x y :: vec_add a' b'
  | _, _ => []
  end.

(** [X + noise] for two arrays of one shape. *)
Fixpoint mat_add (a b : mat) : mat :=
  match a, b with
  | r :: a', s :: b' => vec_add r s :: mat_add a' b'
  | _, _ => []
  end.

(** [a == b], element by element, for two label arrays of one length. *)
Fixpoint np_equal (a b : list Z) : result (list bool) :=
  match a, b with
  | [], [] => Ok []
  | x :: a', y :: b' => rbind (np_equal a' b') (fun m => Ok ((x =? y) :: m))
  | _, _ => Raise (Exn ValueError "operands could not be broadcast together")
  end.

(** [np.mean] of a boolean array: the share of [True]; nan when empty. *)
Definition np_mean_bool (l : list bool) : pyfloat :=
  match l with
  | [] => FNaN
  | _ :: _ =>
      FFinite (Qred (Z.of_nat (length (List.filter (fun b : bool => b) l))
                     # Pos.of_nat (length l)))
  end.

(** [np.mean(original_preds == perturbed_preds)] *)
Definition consistency (original_preds perturbed_preds : list Z)
  : result pyfloat :=
  rbind (np_equal original_preds perturbed_preds)
        (fun m => Ok (np_mean_bool m)).

(** [d[key]] *)
Definition dict_item (d : dict) (key : string) : result pyval :=
  match d !! key with
  | Some v => Ok v
  | None => Raise (Exn KeyError key)
  end.

(** [range(v)] for a value [v]. *)
Definition py_range_of (v : pyval) : result (list Z) :=
  match v with
  | PInt n => Ok (py_range n)
  | _ => Raise (Exn TypeError "object cannot be interpreted as an integer")
  end.

(** ** NeuroSymbolicClassifier *)

Module NeuroSymbolicClassifier.

(** What [self.integration_layer] holds: an [nn.Sequential] for late
    fusion, an [AttentionFusion] for attention fusion.  [Mod] is the type
    of torch modules. *)
Inductive integration (Mod : Type) : Type :=
| SequentialLayer (m : Mod)
| AttentionLayer (a : AttentionFusion.t Mod).
Arguments SequentialLayer {Mod} m.
Arguments AttentionLayer {Mod} a.

(** The attributes of an instance: the first four are set by
    [BaseModel.__init__], the others by [NeuroSymbolicClassifier.__init__]. *)
Record object (Mod : Type) : Type := {
  config : dict;
  is_trained : bool;
  model_version : pyval;
  metadata : dict;
  input_size : pyval;
  hidden_layers : pyval;
  num_classes : pyval;
  symbolic_rules : pyval;
  reasoning_engine : pyval;
  integration_method : pyval;
  neural_network : Mod;
  symbolic_reasoner : SimpleReasoner.t;
  integration_layer : integration Mod
}.
Arguments config {Mod} self : rename.
Arguments is_trained {Mod} self : rename.
Arguments model_version {Mod} self : rename.
Arguments metadata {Mod} self : rename.
Arguments input_size {Mod} self : rename.
Arguments hidden_layers {Mod} self : rename.
Arguments num_classes {Mod} self : rename.
Arguments symbolic_rules {Mod} self : rename.
Arguments reasoning_engine {Mod} self : rename.
Arguments integration_method {Mod} self : rename.
Arguments neural_network {Mod} self : rename.
Arguments symbolic_reasoner {Mod} self : rename.
Arguments integration_layer {Mod} self : rename.

Section WithLibrary.
Context {L : Library}.

Abbreviation t := (object (nn_Module L)).

Definition set_is_trained (b : bool) (self : t) : t :=
  {| config := config self; is_trained := b;
     model_version := model_version self; metadata := metadata self;
     input_size := input_size self; hidden_layers := hidden_layers self;
     num_classes := num_classes self; symbolic_rules := symbolic_rules self;
     reasoning_engine := reasoning_engine self;
     integration_method := integration_method self;
     neural_network := neural_network self;
     symbolic_reasoner := symbolic_reasoner self;
     integration_layer := integration_layer self |}.

(** *** Attribute lookup

    [class NeuroSymbolicClassifier(BaseModel)], with [BaseModel] imported
    from the package's [base] module, and [class BaseModel(ABC)] in
    core/base/__init__.py, the one definition of [BaseModel] in the
    repository: a name looked up on an instance is one of its attributes or
    a function of one of these two classes ([ABC] and [object] define none
    of the names the program looks up). *)
Definition instance_attributes : list string :=
  ["config"; "is_trained"; "model_version"; "metadata"; "input_size";
   "hidden_layers"; "num_classes"; "symbolic_rules"; "reasoning_engine";
   "integration_method"; "neural_network"; "symbolic_reasoner";
   "integration_layer"].

Definition NeuroSymbolicClassifier_functions : list string :=
  ["__init__"; "_build_neural_network"; "_build_symbolic_reasoner";
   "_build_integration_layer"; "fit"; "_forward_pass"; "predict";
   "predict_proba"; "explain"; "_get_neural_importance";
   "_get_symbolic_reasoning"; "_combine_explanations"; "evaluate";
   "_calculate_explainability_score"; "_calculate_robustness_score"].

Definition BaseModel_functions : list string :=
  ["__init__"; "fit"; "predict"; "predict_proba"; "explain"; "evaluate";
   "save_model"; "load_model"; "get_metadata"].

Definition has_attribute (name : string) : bool :=
  mem_string name
    (instance_attributes ++ NeuroSymbolicClassifier_functions
       ++ BaseModel_functions).

(** [self.name(...)] for a name that the two classes do not define
    themselves: [found] is what [nn.Module] runs under that name. *)
Definition call_attribute {A} (name : string) (found : M L A) : M L A :=
  if has_attribute name then found
  else raise (Exn AttributeError
    ("'NeuroSymbolicClassifier' object has no attribute '" ++ name ++ "'")).

(** *** Construction *)

(** [_build_neural_network(self)] *)
Definition _build_neural_network (input_size hidden_layers : pyval)
  : M L (nn_Module L) :=
  (* input layer *)
  h0 <- of_result (py_subscript hidden_layers 0) ;;
  l0 <- call (nn_Linear L input_size h0) ;;
  r0 <- call (nn_ReLU L) ;;
  d0 <- call (nn_Dropout L (FFinite (1 # 5))) ;;
  (* hidden layers *)
  n <- of_result (py_len hidden_layers) ;;
  layers <- for_each (py_range (n - 1))
    (fun layers i =>
       a <- of_result (py_subscript hidden_layers i) ;;
       b <- of_result (py_subscript hidden_layers (i + 1)) ;;
       l <- call (nn_Linear L a b) ;;
       r <- call (nn_ReLU L) ;;
       d <- call (nn_Dropout L (FFinite (1 # 5))) ;;
       ret (layers ++ [l; r; d])%list)
    [l0; r0; d0] ;;
  (* output layer (before integration) *)
  a <- of_result (py_subscript hidden_layers (-1)) ;;
  b <- of_result (py_subscript hidden_layers (-1)) ;;
  l <- call (nn_Linear L a b) ;;
  r <- call (nn_ReLU L) ;;
  call (nn_Sequential L (layers ++ [l; r])%list).

(** [_build_symbolic_reasoner(self)]: the reasoner is called with the two
    keyword arguments [rules] and [engine]. *)
Definition _build_symbolic_reasoner (symbolic_rules reasoning_engine : pyval)
  : M L SimpleReasoner.t :=
  of_result (SimpleReasoner.new []
               [("rules", symbolic_rules); ("engine", reasoning_engine)]).

(** [_build_integration_layer(self)] *)
Definition _build_integration_layer (integration_method hidden_layers : pyval)
    (symbolic_reasoner : SimpleReasoner.t) (num_classes : pyval)
  : M L (integration (nn_Module L)) :=
  if py_eq_str integration_method "late_fusion" then
    last <- of_result (py_subscript hidden_layers (-1)) ;;
    width <- of_result
      (py_add last (PInt (SimpleReasoner.get_output_size symbolic_reasoner))) ;;
    l1 <- call (nn_Linear L width (PInt 128)) ;;
    r <- call (nn_ReLU L) ;;
    d <- call (nn_Dropout L (FFinite (1 # 5))) ;;
    l2 <- call (nn_Linear L (PInt 128) num_classes) ;;
    s <- call (nn_Sequential L [l1; r; d; l2]) ;;
    ret (SequentialLayer s)
  else if py_eq_str integration_method "attention_fusion" then
    last <- of_result (py_subscript hidden_layers (-1)) ;;
    a <- AttentionFusion.__init__ last
           (PInt (SimpleReasoner.get_output_size symbolic_reasoner))
           num_classes ;;
    ret (AttentionLayer a)
  else
    raise (Exn ValueError
      ("Unknown integration method: " ++ py_str L integration_method)).

(** [NeuroSymbolicClassifier.__init__(self, config)], the [construct] of
    the specification. *)
Definition __init__ (config : dict) : M L t :=
  (* super().__init__(config) *)
  let self_config := config in
  let self_is_trained := false in
  let self_model_version := PNone in
  let self_metadata : dict := ∅ in
  let input_size := dict_get config "input_size" PNone in
  let hidden_layers :=
    dict_get config "hidden_layers" (PList [PInt 256; PInt 128; PInt 64]) in
  let num_classes := dict_get config "num_classes" PNone in
  let symbolic_rules := dict_get config "symbolic_rules" (PList []) in
  let reasoning_engine := dict_get config "reasoning_engine" (PStr "prolog") in
  let integration_method :=
    dict_get config "integration_method" (PStr "late_fusion") in
  nn <- _build_neural_network input_size hidden_layers ;;
  sr <- _build_symbolic_reasoner symbolic_rules reasoning_engine ;;
  il <- _build_integration_layer integration_method hidden_layers sr
          num_classes ;;
  ret {| config := self_config; is_trained := self_is_trained;
         model_version := self_model_version; metadata := self_metadata;
         input_size := input_size; hidden_layers := hidden_layers;
         num_classes := num_classes; symbolic_rules := symbolic_rules;
         reasoning_engine := reasoning_engine;
         integration_method := integration_method;
         neural_network := nn; symbolic_reasoner := sr;
         integration_layer := il |}.

(** *** The forward pass *)

(** [symbolic_output.get("features", torch.zeros(size))] *)
Definition features_or_zeros (reasoner : SimpleReasoner.t)
    (symbolic_output : dict) : result pyval :=
  rbind (torch_zeros (SimpleReasoner.get_output_size reasoner))
        (fun z => Ok (dict_get symbolic_output "features" (PTensor z))).

(** [X[i]] for a row index of a two dimensional tensor. *)
Definition tensor_row (X : mat) (i : Z) : result vec :=
  match list_index X i with
  | Some r => Ok r
  | None => Raise (Exn IndexError "index out of range")
  end.

(** [self.integration_layer(combined_features)] *)
Definition call_integration1 (layer : integration (nn_Module L)) (x : mat)
  : M L mat :=
  match layer with
  | SequentialLayer m => call (module_call L m x)
  | AttentionLayer _ =>
      raise (Exn TypeError
        "forward() missing 1 required positional argument: 'symbolic_features'")
  end.

(** [self.integration_layer(neural_features, symbolic_tensor)] *)
Definition call_integration2 (layer : integration (nn_Module L))
    (x s : mat) : M L mat :=
  match layer with
  | AttentionLayer a => AttentionFusion.forward a x s
  | SequentialLayer _ =>
      raise (Exn TypeError
        "forward() takes 2 positional arguments but 3 were given")
  end.

(** [_forward_pass(self, X)] *)
Definition _forward_pass (self : t) (X : mat) : M L mat :=
  neural_features <- call (module_call L (neural_network self) X) ;;
  symbolic_outputs <- for_each (py_range (Z.of_nat (length X)))
    (fun symbolic_outputs i =>
       row <- of_result (tensor_row X i) ;;
       symbolic_output <- with_torch_generator
         (SimpleReasoner.reason (symbolic_reasoner self)
            [ {[ "features" := PTensor row ]} ] "classify") ;;
       v <- of_result (features_or_zeros (symbolic_reasoner self)
                         symbolic_output) ;;
       ret (symbolic_outputs ++ [v])%list)
    [] ;;
  symbolic_tensor <- of_result (torch_stack symbolic_outputs) ;;
  if py_eq_str (integration_method self) "late_fusion" then
    combined_features <- of_result
      (torch_cat_dim1 neural_features symbolic_tensor) ;;
    call_integration1 (integration_layer self) combined_features
  else if py_eq_str (integration_method self) "attention_fusion" then
    call_integration2 (integration_layer self) neural_features symbolic_tensor
  else
    raise (Exn UnboundLocalError
      "local variable 'outputs' referenced before assignment").

(** *** Training *)

(** One pass of the body of the batch loop of [fit]; [total_loss] is the
    running sum of the epoch. *)
Definition train_batch (self : t) (optimizer : Optimizer L)
    (criterion : Criterion L) (total_loss : pyfloat)
    (batch : mat * list Z) : M L pyfloat :=
  let '(batch_X, batch_y) := batch in
  call (zero_grad L optimizer) ;;;
  (* forward pass *)
  outputs <- _forward_pass self batch_X ;;
  loss <- call (criterion_call L criterion outputs batch_y) ;;
  (* backward pass *)
  call (backward L loss) ;;;
  call (step L optimizer) ;;;
  ret (fadd total_loss (item L loss)).

(** The body of the epoch loop of [fit].  The message logged every tenth
    epoch divides the epoch's loss by [len(dataloader)]. *)
Definition train_epoch (self : t) (optimizer : Optimizer L)
    (criterion : Criterion L) (dataloader : DataLoader L) (epoch : Z)
  : M L unit :=
  let total_loss := fzero in
  batches <- call (dataloader_iter L dataloader) ;;
  total_loss <- for_each batches (train_batch self optimizer criterion)
                  total_loss ;;
  if (epoch + 1) mod 10 =? 0 then
    if dataloader_len L dataloader =? 0 then
      raise (Exn ZeroDivisionError "float division by zero")
    else ret tt
  else ret tt.

(** [for epoch in range(epochs): ...] *)
Definition training_loop (self : t) (optimizer : Optimizer L)
    (criterion : Criterion L) (dataloader : DataLoader L)
    (epochs : list Z) : M L unit :=
  for_each epochs
    (fun _ epoch => train_epoch self optimizer criterion dataloader epoch)
    tt.

(** [fit(self, X, y)]; the result is [self] with its new attributes. *)
Definition fit (self : t) (X : features) (y : list Z) : M L t :=
  (* convert to torch tensors *)
  let X_tensor := rows X in
  let y_tensor := y in
  (* training parameters *)
  let learning_rate :=
    dict_get (config self) "learning_rate" (PFloat (FFinite (1 # 1000))) in
  let epochs := dict_get (config self) "epochs" (PInt 100) in
  let batch_size := dict_get (config self) "batch_size" (PInt 32) in
  (* optimizer and loss function *)
  params <- call_attribute "parameters" (call (Module_parameters L)) ;;
  optimizer <- call (optim_Adam L params learning_rate) ;;
  criterion <- call (nn_CrossEntropyLoss L) ;;
  (* training loop *)
  dataset <- call (TensorDataset L X_tensor y_tensor) ;;
  dataloader <- call (DataLoader_shuffled L dataset batch_size) ;;
  call_attribute "train" (call (Module_train L)) ;;;
  epoch_range <- of_result (py_range_of epochs) ;;
  training_loop self optimizer criterion dataloader epoch_range ;;;
  ret (set_is_trained true self).

(** *** Prediction *)

(** [predict(self, X)] *)
Definition predict (self : t) (X : features) : M L (list Z) :=
  if negb (is_trained self) then
    raise (Exn ValueError "Model must be trained before making predictions")
  else
    call_attribute "eval" (call (Module_eval L)) ;;;
    let X_tensor := rows X in
    outputs <- _forward_pass self X_tensor ;;
    of_result (torch_argmax_dim1 L outputs).

(** [predict_proba(self, X)] *)
Definition predict_proba (self : t) (X : features) : M L mat :=
  if negb (is_trained self) then
    raise (Exn ValueError "Model must be trained before making predictions")
  else
    call_attribute "eval" (call (Module_eval L)) ;;;
    let X_tensor := rows X in
    outputs <- _forward_pass self X_tensor ;;
    of_result (torch_softmax_dim1 L outputs).

(** *** Explanation *)

(** [_get_neural_importance(self, X)] *)
Definition _get_neural_importance (self : t) (X : features) : M L dict :=
  let X_values := rows X in
  let feature_names :=
    match columns X with
    | Some names => names
    | None => map (fun i : nat => "feature_" ++ pretty i) (seq 0 (ncols X))
    end in
  call_attribute "eval" (call (Module_eval L)) ;;;
  gradients <- call (input_gradient L (neural_network self) X_values) ;;
  let importance_scores := np_mean_abs_axis0 L gradients in
  k <- of_result (np_argmax L importance_scores) ;;
  most_important <-
    of_result (py_subscript (PList (map PStr feature_names)) k) ;;
  ret (<["method" := PStr "gradient_importance"]>
        (<["feature_names" := PList (map PStr feature_names)]>
          (<["importance_scores" := PList (map PFloat importance_scores)]>
            (<["most_important" := most_important]> ∅)))).

(** [_get_symbolic_reasoning(self, X)]: the first instance only. *)
Definition _get_symbolic_reasoning (self : t) (X : features) : M L dict :=
  let X_values := rows X in
  row <- of_result (tensor_row X_values 0) ;;
  reasoning_result <- with_torch_generator
    (SimpleReasoner.reason (symbolic_reasoner self)
       [ {[ "features" := PTensor row ]} ] "explain_classification") ;;
  ret (<["method" := PStr "symbolic_rules"]>
        (<["rules_applied" :=
             dict_get reasoning_result "rules_applied" (PList [])]>
          (<["reasoning_steps" :=
               dict_get reasoning_result "steps" (PList [])]>
            (<["confidence" :=
                 dict_get reasoning_result "confidence" (PFloat fzero)]> ∅)))).

(** [_combine_explanations(self, neural_importance, symbolic_reasoning)] *)
Definition _combine_explanations (neural_importance symbolic_reasoning : dict)
  : M L dict :=
  primary <- of_result (dict_item neural_importance "most_important") ;;
  applied <- of_result (dict_item symbolic_reasoning "rules_applied") ;;
  confidence <- of_result (dict_item symbolic_reasoning "confidence") ;;
  ret (<["method" := PStr "neuro_symbolic_fusion"]>
        (<["primary_features" := primary]>
          (<["symbolic_rules" := applied]>
            (<["confidence" := confidence]>
              (<["explanation" :=
                   PStr ("Primary features " ++ py_str L primary
                         ++ " triggered rules: " ++ py_str L applied)]> ∅))))).

(** [explain(self, X)] *)
Definition explain (self : t) (X : features) : M L dict :=
  if negb (is_trained self) then
    raise (Exn ValueError
             "Model must be trained before providing explanations")
  else
    neural_importance <- _get_neural_importance self X ;;
    symbolic_reasoning <- _get_symbolic_reasoning self X ;;
    integrated_explanation <-
      _combine_explanations neural_importance symbolic_reasoning ;;
    ret (<["neural_importance" := PDict neural_importance]>
          (<["symbolic_reasoning" := PDict symbolic_reasoning]>
            (<["integrated_explanation" := PDict integrated_explanation]> ∅))).

(** *** Evaluation *)

(** [_calculate_explainability_score(self, probabilities)] *)
Definition _calculate_explainability_score (probabilities : mat)
  : M L pyfloat :=
  max_probs <- of_result (np_max_axis1 L probabilities) ;;
  ret (np_mean L max_probs).

(** [X + noise]: the shape and the column names of [X] are kept. *)
Definition perturb (X : features) (noise : mat) : features :=
  {| columns := columns X; ncols := ncols X;
     rows := mat_add (rows X) noise |}.

(** [_calculate_robustness_score(self, X, y)]; the noise has a fixed
    standard deviation of 0.01. *)
Definition _calculate_robustness_score (self : t) (X : features)
    (y : list Z) : M L pyfloat :=
  noise <- with_numpy_generator
    (np_random_normal 0 (1 # 100) (length (rows X) * ncols X)) ;;
  let noise := reshape_rows (length (rows X)) (ncols X) noise in
  let perturbed_X := perturb X noise in
  original_preds <- predict self X ;;
  perturbed_preds <- predict self perturbed_X ;;
  of_result (consistency original_preds perturbed_preds).

(** [evaluate(self, X, y)]; the import of [sklearn.metrics] that opens the
    body is taken to succeed. *)
Definition evaluate (self : t) (X : features) (y : list Z) : M L dict :=
  predictions <- predict self X ;;
  probabilities <- predict_proba self X ;;
  accuracy <- of_result (accuracy_score L y predictions) ;;
  precision <- of_result (precision_score L y predictions) ;;
  recall <- of_result (recall_score L y predictions) ;;
  f1 <- of_result (f1_score L y predictions) ;;
  explainability <- _calculate_explainability_score probabilities ;;
  robustness <- _calculate_robustness_score self X y ;;
  ret (<["accuracy" := PFloat accuracy]>
        (<["precision" := PFloat precision]>
          (<["recall" := PFloat recall]>
            (<["f1_score" := PFloat f1]>
              (<["explainability_score" := PFloat explainability]>
                (<["robustness_score" := PFloat robustness]> ∅)))))).

End WithLibrary.
End NeuroSymbolicClassifier.

(** ** An executable library

    A small instance of [Library] on which the embedding runs.  Its modules
    are lists of layers whose weights and biases are all zero, so a module
    sends finite inputs to zeros and lets nan through; its loss is nan when
    a logit is not finite and 0 otherwise; its data loader keeps the order of
    the data; its state is the log of the optimizer calls. *)

Module ZeroNet.

Inductive layer : Type :=
| Linear (in_features out_features : Z)
| ReLU
| Dropout
| Attention (embed_dim num_heads : Z).

Inductive event : Type := ZeroGrad | Backward | Step | Train | Eval.

Definition ok {A} (a : A) : lib (list event) A := fun s => (Ok a, s).
Definition fail {A} (e : exn) : lib (list event) A := fun s => (Raise e, s).
Definition log (ev : event) : lib (list event) unit :=
  fun s => (Ok tt, ((fst s ++ [ev])%list, snd s)).

Definition linear (a b : pyval) : lib (list event) (list layer) :=
  match a, b with
  | PInt i, PInt o =>
      if (i <? 0) || (o <? 0) then
        fail (Exn RuntimeError "Trying to create tensor with negative dimension")
      else ok [Linear i o]
  | _, _ => fail (Exn TypeError "empty(): argument 'size' must be tuple of ints")
  end.

Definition multihead_attention (e : pyval) (h : Z)
  : lib (list event) (list layer) :=
  match e with
  | PInt d =>
      if (0 <? d) && (d mod h =? 0) then ok [Attention d h]
      else fail (Exn AssertionError "embed_dim must be divisible by num_heads")
  | _ => fail (Exn TypeError "unsupported operand type(s) for %")
  end.

Definition all_finite (v : vec) : bool := forallb isfinite v.

Definition relu (x : pyfloat) : pyfloat :=
  match x with
  | FFinite q => if Qle_bool q 0 then fzero else FFinite q
  | FNegInf => fzero
  | _ => x
  end.

Definition layer_row (l : layer) (row : vec) : result vec :=
  match l with
  | Linear i o =>
      if Z.of_nat (length row) =? i then
        Ok (repeat (if all_finite row then fzero else FNaN) (Z.to_nat o))
      else Raise (Exn RuntimeError "mat1 and mat2 shapes cannot be multiplied")
  | ReLU => Ok (map relu row)
  | Dropout => Ok row
  | Attention e _ =>
      if Z.of_nat (length row) =? e then
        Ok (repeat (if all_finite row then fzero else FNaN) (Z.to_nat e))
      else Raise (Exn AssertionError "was expecting embedding dimension")
  end.

Fixpoint layers_row (m : list layer) (row : vec) : result vec :=
  match m with
  | [] => Ok row
  | l :: m' => rbind (layer_row l row) (layers_row m')
  end.

Fixpoint forward_rows (m : list layer) (X : mat) : result mat :=
  match X with
  | [] => Ok []
  | row :: X' =>
      rbind (layers_row m row) (fun r =>
        rbind (forward_rows m X') (fun rs => Ok (r :: rs)))
  end.

Definition pure {A} (r : result A) : lib (list event) A := fun s => (r, s).

Definition attention_forward (m : list layer) (q k v : list mat)
  : lib (list event) (list mat) :=
  pure (rbind (forward_rows m (List.concat q))
              (fun rows => Ok (map (fun r => [r]) rows))).

Definition tensor_dataset (X : mat) (y : list Z)
  : lib (list event) (mat * list Z) :=
  if Nat.eqb (length X) (length y) then ok (X, y)
  else fail (Exn AssertionError "Size mismatch between tensors").

Definition data_loader (d : mat * list Z) (batch_size : pyval)
  : lib (list event) ((mat * list Z) * nat) :=
  match batch_size with
  | PInt b =>
      if 0 <? b then ok (d, Z.to_nat b)
      else fail (Exn ValueError "batch_size should be a positive integer value")
  | _ => fail (Exn ValueError "batch_size should be a positive integer value")
  end.

Fixpoint batches (fuel b : nat) (X : mat) (y : list Z)
  : list (mat * list Z) :=
  match fuel, X with
  | S fuel', _ :: _ =>
      (firstn b X, firstn b y) :: batches fuel' b (skipn b X) (skipn b y)
  | _, _ => []
  end.

Definition loader_batches (dl : (mat * list Z) * nat) : list (mat * list Z) :=
  let '((X, y), b) := dl in batches (length X) b X y.

Definition loss_of (outputs : mat) : pyfloat :=
  if forallb all_finite outputs then fzero else FNaN.

(** Every row this library computes is constant: its first index is an
    argmax, its first entry is its maximum and its mean. *)
Definition argmax_row (row : vec) : Z := 0.

Definition uniform_row (row : vec) : vec :=
  if all_finite row then
    repeat (FFinite (1 # Pos.of_nat (length row))) (length row)
  else map (fun _ => FNaN) row.

Definition first_or_nan (v : vec) : pyfloat :=
  match v with [] => FNaN | x :: _ => x end.

Definition zeros_like_first_row (m : mat) : vec :=
  match m with [] => [] | r :: _ => map (fun _ => fzero) r end.

Definition argmax_of (v : vec) : result Z :=
  match v with
  | [] => Raise (Exn ValueError "attempt to get argmax of an empty sequence")
  | _ :: _ => Ok 0
  end.

Definition accuracy (y_true y_pred : list Z) : result pyfloat :=
  rbind (np_equal y_true y_pred) (fun m => Ok (np_mean_bool m)).

Definition str (v : pyval) : string :=
  match v with PStr s => s | _ => "<value>" end.

Definition library : Library := {|
  Mem := list event;
  nn_Module := list layer;
  Params := unit;
  Optimizer := unit;
  Criterion := unit;
  Dataset := mat * list Z;
  DataLoader := (mat * list Z) * nat;
  Loss := pyfloat;
  nn_Linear := linear;
  nn_ReLU := ok [ReLU];
  nn_Dropout := fun _ => ok [Dropout];
  nn_Sequential := fun ms => ok (List.concat ms);
  nn_MultiheadAttention := multihead_attention;
  module_call := fun m X => pure (forward_rows m X);
  attention_call := attention_forward;
  Module_parameters := ok tt;
  Module_train := log Train;
  Module_eval := log Eval;
  optim_Adam := fun _ _ => ok tt;
  nn_CrossEntropyLoss := ok tt;
  TensorDataset := tensor_dataset;
  DataLoader_shuffled := data_loader;
  dataloader_iter := fun dl => ok (loader_batches dl);
  dataloader_len := fun dl => Z.of_nat (length (loader_batches dl));
  zero_grad := fun _ => log ZeroGrad;
  criterion_call := fun _ outputs _ => ok (loss_of outputs);
  backward := fun _ => log Backward;
  step := fun _ => log Step;
  item := fun l => l;
  torch_argmax_dim1 := fun m => Ok (map argmax_row m);
  torch_softmax_dim1 := fun m => Ok (map uniform_row m);
  input_gradient := fun _ X => ok (map (map (fun _ => fzero)) X);
  np_mean_abs_axis0 := zeros_like_first_row;
  np_argmax := argmax_of;
  np_max_axis1 := fun m => Ok (map first_or_nan m);
  np_mean := first_or_nan;
  accuracy_score := accuracy;
  precision_score := accuracy;
  recall_score := accuracy;
  f1_score := accuracy;
  py_str := str
|}.

(** A generator that delivers the sample [z] for ever. *)
Definition constant_generator (z : pyfloat) : generator :=
  {| samples := fun _ => z; cursor := 0 |}.

(** The state before anything has run: an empty log, and two generators
    delivering 1 and 0. *)
Definition initial_world : world (list event) :=
  {| torch_mem := [];
     torch_generator := constant_generator (FFinite 1);
     numpy_generator := constant_generator fzero |}.

End ZeroNet.

(** ** Concrete inputs *)

Module Examples.
Import NeuroSymbolicClassifier.

(** Scenario A of the specification: four inputs, hidden layers 8 and 4,
    two classes, late fusion. *)
Definition scenario_A : dict :=
  <["input_size" := PInt 4]>
    (<["hidden_layers" := PList [PInt 8; PInt 4]]>
      (<["num_classes" := PInt 2]>
        (<["integration_method" := PStr "late_fusion"]> ∅))).

(** Scenario A with an empty list of hidden layers. *)
Definition no_hidden_layers : dict :=
  <["hidden_layers" := PList []]> scenario_A.

Definition reasoner : SimpleReasoner.t :=
  {| SimpleReasoner.config := PDict ∅;
     SimpleReasoner.knowledge_base := PNone;
     SimpleReasoner.rules := PList [];
     SimpleReasoner.output_size := 32 |}.

(** The attributes [__init__] assigns for Scenario A, with the modules the
    three build steps describe, before any training. *)
Definition untrained : object (list ZeroNet.layer) :=
  {| config := scenario_A; is_trained := false;
     model_version := PNone; metadata := ∅;
     input_size := PInt 4; hidden_layers := PList [PInt 8; PInt 4];
     num_classes := PInt 2; symbolic_rules := PList [];
     reasoning_engine := PStr "prolog";
     integration_method := PStr "late_fusion";
     neural_network :=
       [ZeroNet.Linear 4 8; ZeroNet.ReLU; ZeroNet.Dropout;
        ZeroNet.Linear 8 4; ZeroNet.ReLU; ZeroNet.Dropout;
        ZeroNet.Linear 4 4; ZeroNet.ReLU];
     symbolic_reasoner := reasoner;
     integration_layer :=
       SequentialLayer
         [ZeroNet.Linear 36 128; ZeroNet.ReLU; ZeroNet.Dropout;
          ZeroNet.Linear 128 2] |}.

(** The same object with the flag that the last line of [fit] sets. *)
Definition trained : object (list ZeroNet.layer) :=
  set_is_trained (L := ZeroNet.library) true untrained.

Definition f (z : Z) : pyfloat := FFinite (inject_Z z).

(** Two instances of four features. *)
Definition X4 : features :=
  {| columns := None; ncols := 4;
     rows := [[f 1; f 2; f 3; f 4]; [f 0; f 0; f 1; f 1]] |}.

(** Two instances of three features. *)
Definition X3 : features :=
  {| columns := None; ncols := 3;
     rows := [[f 1; f 2; f 3]; [f 0; f 0; f 1]] |}.

Definition y2 : list Z := [0; 1].

End Examples.

(** ** Descriptions used to state properties *)

(** The pairs of neighbours of a list: (h0, h1), (h1, h2), ... *)
Fixpoint adjacent_pairs (hs : list pyval) : list (pyval * pyval) :=
  match hs with
  | a :: tl =>
      match tl with
      | b :: _ => (a, b) :: adjacent_pairs tl
      | [] => []
      end
  | [] => []
  end.

(** One block of the encoder appended to [layers]: a linear layer of the
    given sizes, a ReLU and a dropout of 0.2. *)
Definition linear_block {L : Library} (layers : list (nn_Module L))
    (sizes : pyval * pyval) : M L (list (nn_Module L)) :=
  l <- call (nn_Linear L (fst sizes) (snd sizes)) ;;
  r <- call (nn_ReLU L) ;;
  d <- call (nn_Dropout L (FFinite (1 # 5))) ;;
  ret (layers ++ [l; r; d])%list.

(** The dictionary [_get_symbolic_reasoning] is found to return. *)
Definition canned_symbolic_reasoning : dict :=
  <["method" := PStr "symbolic_rules"]>
    (<["rules_applied" := PList [PStr "rule_1"; PStr "rule_2"]]>
      (<["reasoning_steps" :=
           PList [PStr "Analyze features"; PStr "Apply rules";
                  PStr "Conclude"]]>
        (<["confidence" := PFloat (FFinite (17 # 20))]> ∅))).

(** The instance of Scenario A with a fusion method the program does not
    know. *)
Definition early_fusion_instance
  : NeuroSymbolicClassifier.object (list ZeroNet.layer) :=
  {| NeuroSymbolicClassifier.config :=
       <["integration_method" := PStr "early_fusion"]> Examples.scenario_A;
     NeuroSymbolicClassifier.is_trained := false;
     NeuroSymbolicClassifier.model_version := PNone;
     NeuroSymbolicClassifier.metadata := ∅;
     NeuroSymbolicClassifier.input_size := PInt 4;
     NeuroSymbolicClassifier.hidden_layers := PList [PInt 8; PInt 4];
     NeuroSymbolicClassifier.num_classes := PInt 2;
     NeuroSymbolicClassifier.symbolic_rules := PList [];
     NeuroSymbolicClassifier.reasoning_engine := PStr "prolog";
     NeuroSymbolicClassifier.integration_method := PStr "early_fusion";
     NeuroSymbolicClassifier.neural_network :=
       NeuroSymbolicClassifier.neural_network Examples.untrained;
     NeuroSymbolicClassifier.symbolic_reasoner := Examples.reasoner;
     NeuroSymbolicClassifier.integration_layer :=
       NeuroSymbolicClassifier.integration_layer Examples.untrained |}.

(** An attention fusion for four neural and four symbolic features. *)
Definition small_attention_fusion : AttentionFusion.t (list ZeroNet.layer) :=
  {| AttentionFusion.neural_size := PInt 4;
     AttentionFusion.symbolic_size := PInt 4;
     AttentionFusion.attention := [ZeroNet.Attention 8 8];
     AttentionFusion.output_layer :=
       [ZeroNet.Linear 8 128; ZeroNet.ReLU; ZeroNet.Dropout;
        ZeroNet.Linear 128 2] |}.

(** * Properties *)

Import NeuroSymbolicClassifier.

(** The exceptions the program is observed to raise. *)
Definition keyword_error : exn :=
  Exn TypeError
    "SimpleReasoner.__init__() got an unexpected keyword argument 'rules'".

Definition no_attribute (name : string) : exn :=
  Exn AttributeError
    ("'NeuroSymbolicClassifier' object has no attribute '" ++ name ++ "'").

Definition not_trained_predict : exn :=
  Exn ValueError "Model must be trained before making predictions".

Definition not_trained_explain : exn :=
  Exn ValueError "Model must be trained before providing explanations".

(** ** The embedding at work on small inputs *)

Example list_index_from_the_end :
  list_index [10; 20; 30] (-1) = Some 30 /\ list_index [10; 20; 30] 3 = None.
Proof. split; reflexivity. Qed.

Example range_of_small_numbers :
  py_range 3 = [0; 1; 2] /\ py_range 0 = [] /\ py_range (-2) = [].
Proof. repeat split; reflexivity. Qed.

Example subscript_of_empty_list :
  py_subscript (PList []) 0 = Raise (Exn IndexError "list index out of range").
Proof. reflexivity. Qed.

Example reasoner_called_with_its_config :
  SimpleReasoner.new [PDict ∅] [] = Ok Examples.reasoner
  /\ SimpleReasoner.new [] [("config", PDict ∅)] = Ok Examples.reasoner.
Proof. split; vm_compute; reflexivity. Qed.

Example reasoner_called_without_arguments :
  SimpleReasoner.new [] []
  = Raise (Exn TypeError
      "SimpleReasoner.__init__() missing required positional argument: 'config'").
Proof. reflexivity. Qed.

Example names_on_an_instance :
  has_attribute "predict" = true /\ has_attribute "is_trained" = true
  /\ has_attribute "eval" = false /\ has_attribute "train" = false
  /\ has_attribute "parameters" = false.
Proof. repeat split; reflexivity. Qed.

Example consistency_of_three_labels :
  consistency [0; 1; 1] [0; 1; 0] = Ok (FFinite (2 # 3))
  /\ consistency [2; 2] [2; 2] = Ok (FFinite 1)
  /\ consistency [] [] = Ok FNaN.
Proof. repeat split; reflexivity. Qed.

Example forward_pass_of_two_rows :
  fst (_forward_pass (L := ZeroNet.library) Examples.untrained
         (rows Examples.X4) ZeroNet.initial_world)
  = Ok [[fzero; fzero]; [fzero; fzero]]
  /\ cursor (torch_generator
               (snd (_forward_pass (L := ZeroNet.library) Examples.untrained
                       (rows Examples.X4) ZeroNet.initial_world)))
     = 64%nat.
Proof. split; vm_compute; reflexivity. Qed.

Example forward_pass_of_three_features :
  fst (_forward_pass (L := ZeroNet.library) Examples.untrained
         (rows Examples.X3) ZeroNet.initial_world)
  = Raise (Exn RuntimeError "mat1 and mat2 shapes cannot be multiplied").
Proof. vm_compute. reflexivity. Qed.

(** ** Construction *)

Section Construction.
Context {L : Library}.
Implicit Types (config : dict) (w : world (Mem L)).

(** The call of [SimpleReasoner] with [rules=] and [engine=] fails while
    its arguments are bound, whatever their values. *)
Lemma new_with_keywords_raises (rules engine : pyval) :
  SimpleReasoner.new [] [("rules", rules); ("engine", engine)]
  = Raise keyword_error.
Proof. reflexivity. Qed.

Lemma build_symbolic_reasoner_raises (rules engine : pyval) w :
  _build_symbolic_reasoner (L := L) rules engine w = (Raise keyword_error, w).
Proof.
  unfold _build_symbolic_reasoner.
  rewrite new_with_keywords_raises. reflexivity.
Qed.

(** [__init__] ends in the neural network's build step or in the
    reasoner's. *)
Lemma init_unfold config w :
  __init__ config w
  = match _build_neural_network (L := L)
            (dict_get config "input_size" PNone)
            (dict_get config "hidden_layers"
               (PList [PInt 256; PInt 128; PInt 64])) w with
    | (Ok _, w') => (Raise keyword_error, w')
    | (Raise e, w') => (Raise e, w')
    end.
Proof.
  unfold __init__, bind.
  destruct (_build_neural_network _ _ w) as [[nn | e] w']; [| reflexivity].
  rewrite build_symbolic_reasoner_raises. reflexivity.
Qed.

Lemma init_not_ok config w : is_ok (fst (__init__ config w)) = false.
Proof.
  rewrite init_unfold.
  destruct (_build_neural_network _ _ w) as [[nn | e] w']; reflexivity.
Qed.

Lemma dict_get_insert_ne config (k k' : string) (v dflt : pyval) :
  k <> k' -> dict_get (<[k := v]> config) k' dflt = dict_get config k' dflt.
Proof.
  intros Hne. unfold dict_get. rewrite lookup_insert_ne by exact Hne.
  reflexivity.
Qed.

End Construction.

(** C1 (the code departs from it): on the configuration of Scenario A, late
    fusion with every size valid, construction does not succeed with any
    library, and with the executable library it raises the TypeError of the
    reasoner's keyword arguments. *)
Theorem construct_scenario_A_fails :
  (forall (L : Library) (w : world (Mem L)),
      is_ok (fst (__init__ (L := L) Examples.scenario_A w)) = false)
  /\ fst (__init__ (L := ZeroNet.library) Examples.scenario_A
            ZeroNet.initial_world)
     = Raise keyword_error.
Proof.
  split.
  - intros L w. apply init_not_ok.
  - vm_compute. reflexivity.
Qed.

(** C2, counterexample: with an empty list of hidden layers the constructor
    raises IndexError, from [self.hidden_layers[0]], and not a TypeError. *)
Lemma construct_no_hidden_layers_IndexError :
  fst (__init__ (L := ZeroNet.library) Examples.no_hidden_layers
         ZeroNet.initial_world)
  = Raise (Exn IndexError "list index out of range").
Proof. vm_compute. reflexivity. Qed.

(** C2, as amended: for every configuration dictionary and every library,
    constructing a NeuroSymbolicClassifier raises: the exception is the one
    raised while the neural network is built if that step fails, and
    otherwise the TypeError of calling SimpleReasoner with the keywords
    rules= and engine=.  The fusion method is never looked at: the outcome is
    the same whatever the configuration holds under integration_method. *)
Theorem construct_always_raises_before_fusion :
  forall (L : Library) (config : dict) (w : world (Mem L)),
    is_ok (fst (__init__ config w)) = false
    /\ __init__ config w
       = match _build_neural_network (L := L)
                 (dict_get config "input_size" PNone)
                 (dict_get config "hidden_layers"
                    (PList [PInt 256; PInt 128; PInt 64])) w with
         | (Ok _, w') => (Raise keyword_error, w')
         | (Raise e, w') => (Raise e, w')
         end
    /\ (forall method : pyval,
          __init__ (<["integration_method" := method]> config) w
          = __init__ config w).
Proof.
  intros L config w. split; [apply init_not_ok |].
  split; [apply init_unfold |].
  intros method. rewrite !init_unfold.
  rewrite !dict_get_insert_ne by discriminate. reflexivity.
Qed.

(** ** Prediction *)

(** C3 (the code departs from it): on an instance whose trained flag is set,
    [predict] and [predict_proba] both raise AttributeError at [self.eval()],
    for every input and every library; neither returns labels or
    probabilities that could be compared. *)
Theorem predict_trained_raises_AttributeError :
  forall (L : Library) (self : object (nn_Module L)) (X : features)
         (w : world (Mem L)),
    predict (set_is_trained true self) X w = (Raise (no_attribute "eval"), w)
    /\ predict_proba (set_is_trained true self) X w
       = (Raise (no_attribute "eval"), w).
Proof. intros L self X w. split; reflexivity. Qed.

(** C7: on an instance whose trained flag is false, [predict], [explain] and
    [evaluate] raise the ValueError that says the model must be trained
    (NotTrainedError in the specification), and the state is left as it was:
    nothing was computed. *)
Theorem untrained_raises_not_trained :
  forall (L : Library) (self : object (nn_Module L)) (X : features)
         (y : list Z) (w : world (Mem L)),
    is_trained self = false ->
    predict self X w = (Raise not_trained_predict, w)
    /\ explain self X w = (Raise not_trained_explain, w)
    /\ evaluate self X y w = (Raise not_trained_predict, w).
Proof.
  intros L self X y w Hflag.
  assert (Hp : predict self X w = (Raise not_trained_predict, w)).
  { unfold predict. rewrite Hflag. reflexivity. }
  split; [exact Hp |]. split.
  - unfold explain. rewrite Hflag. reflexivity.
  - unfold evaluate, bind. rewrite Hp. reflexivity.
Qed.

(** C7, witness: the instance of Scenario A before training. *)
Lemma untrained_raises_not_trained_witness :
  is_trained Examples.untrained = false
  /\ (predict (L := ZeroNet.library) Examples.untrained Examples.X4
        ZeroNet.initial_world
      = (Raise not_trained_predict, ZeroNet.initial_world)
      /\ explain (L := ZeroNet.library) Examples.untrained Examples.X4
           ZeroNet.initial_world
         = (Raise not_trained_explain, ZeroNet.initial_world)
      /\ evaluate (L := ZeroNet.library) Examples.untrained Examples.X4
           Examples.y2 ZeroNet.initial_world
         = (Raise not_trained_predict, ZeroNet.initial_world)).
Proof.
  split; [reflexivity |].
  apply (untrained_raises_not_trained ZeroNet.library Examples.untrained
           Examples.X4 Examples.y2 ZeroNet.initial_world).
  reflexivity.
Defined.

(** ** The symbolic reasoner *)

Lemma constructed_output_size (r : SimpleReasoner.t) :
  SimpleReasoner.constructed r -> SimpleReasoner.output_size r = 32.
Proof.
  induction 1 as [cfg r Hinit | r knowledge r' _ IH Hadd].
  - unfold SimpleReasoner.__init__ in Hinit.
    destruct (SimpleReasoner.get_of cfg "rules" (PList [])); simpl in Hinit;
      inversion Hinit; reflexivity.
  - unfold SimpleReasoner.add_knowledge in Hadd.
    destruct (SimpleReasoner.py_extend _ _); simpl in Hadd;
      inversion Hadd; simpl; exact IH.
Qed.

Lemma draw_length (n : nat) (g : generator) : length (fst (draw n g)) = n.
Proof. unfold draw. simpl. rewrite length_map, length_seq. reflexivity. Qed.

(** C10, counterexample: a reasoner made from a configuration that asks for
    a symbolic output of size 4.  Its output size is 32 all the same, the
    result of an "explain_classification" query holds no vector at all, and
    the vector of a "classify" query has 32 entries, not 4. *)
Lemma reasoner_vector_absent_or_of_size_32 :
  exists (r : SimpleReasoner.t) (res res' : dict) (v : vec) (g' : generator),
    SimpleReasoner.new [PDict (<["output_size" := PInt 4]> ∅)] [] = Ok r
    /\ SimpleReasoner.get_output_size r = 32
    /\ SimpleReasoner.reason r [] "explain_classification"
         (ZeroNet.constant_generator fzero)
       = (Ok res, ZeroNet.constant_generator fzero)
    /\ res !! "features" = None
    /\ SimpleReasoner.reason r [] "classify" (ZeroNet.constant_generator fzero)
       = (Ok res', g')
    /\ res' !! "features" = Some (PTensor v)
    /\ length v = 32%nat.
Proof.
  do 5 eexists.
  split; [vm_compute; reflexivity |].
  split; [reflexivity |].
  split; [vm_compute; reflexivity |].
  split; [vm_compute; reflexivity |].
  split; [vm_compute; reflexivity |].
  split; vm_compute; reflexivity.
Qed.

(** C10, as amended: for every reasoner the program can hold, whatever
    configuration it was made from, the output size is 32.  For every list
    of facts [reason] returns a result.  The result of a "classify" query
    carries a vector under "features", of 32 entries whatever the facts are.
    The result of every other query carries no vector, and the generator is
    left untouched; for a query that is not "explain_classification" either
    it is the neutral result (the facts, the query and an empty list of
    applied rules).  Where a result carries no vector, the expression of the
    forward pass, [get("features", torch.zeros(size))], gives 32 zeros. *)
Theorem reasoner_vector_only_for_classify :
  forall (r : SimpleReasoner.t) (facts : list dict) (query : string)
         (g : generator),
    SimpleReasoner.constructed r ->
    SimpleReasoner.get_output_size r = 32
    /\ exists (res : dict) (g' : generator),
        SimpleReasoner.reason r facts query g = (Ok res, g')
        /\ if String.eqb query "classify" then
             exists v : vec,
               res !! "features" = Some (PTensor v)
               /\ length v = 32%nat
               /\ features_or_zeros r res = Ok (PTensor v)
           else
             res !! "features" = None
             /\ g' = g
             /\ features_or_zeros r res = Ok (PTensor (repeat fzero 32))
             /\ (query <> "explain_classification" ->
                 res = <["facts" := PList (map PDict facts)]>
                         (<["query" := PStr query]>
                           (<["rules_applied" := PList []]> ∅))).
Proof.
  intros r facts query g Hr.
  pose proof (constructed_output_size r Hr) as Hsize.
  split; [exact Hsize |].
  unfold SimpleReasoner.reason, features_or_zeros,
    SimpleReasoner.get_output_size.
  rewrite Hsize.
  destruct (String.eqb query "classify") eqn:Hc.
  - (* a fresh vector of 32 samples *)
    unfold torch_randn. simpl (32 <? 0).
    cbv iota. destruct (draw (Z.to_nat 32) g) as [v g'] eqn:Hdraw.
    eexists _, g'. split; [reflexivity |].
    exists v. split; [apply lookup_insert_eq |]. split.
    + pose proof (draw_length (Z.to_nat 32) g) as Hlen.
      rewrite Hdraw in Hlen. exact Hlen.
    + unfold torch_zeros, dict_get. simpl.
      rewrite lookup_insert_eq. reflexivity.
  - destruct (String.eqb_spec query "explain_classification") as [He | He].
    + (* the canned trace carries no vector *)
      eexists _, g. split; [reflexivity |].
      assert (Hnone :
        (<["confidence" := PFloat (FFinite (17 # 20))]>
           (<["steps" := PList [PStr "Analyze features"; PStr "Apply rules";
                                PStr "Conclude"]]>
             (<["rules_applied" := PList [PStr "rule_1"; PStr "rule_2"]]>
               (<["facts" := PList (map PDict facts)]>
                 (<["query" := PStr query]>
                   (<["rules_applied" := PList []]> ∅))))) : dict)
          !! "features" = None).
      { rewrite !lookup_insert_ne by discriminate. apply lookup_empty. }
      split; [exact Hnone |]. split; [reflexivity |]. split.
      * unfold torch_zeros, dict_get. simpl. rewrite Hnone. reflexivity.
      * intros Hne. contradiction.
    + (* any other query: the neutral result *)
      eexists _, g. split; [reflexivity |].
      assert (Hnone :
        (<["facts" := PList (map PDict facts)]>
           (<["query" := PStr query]>
             (<["rules_applied" := PList []]> ∅)) : dict)
          !! "features" = None).
      { rewrite !lookup_insert_ne by discriminate. apply lookup_empty. }
      split; [exact Hnone |]. split; [reflexivity |]. split.
      * unfold torch_zeros, dict_get. simpl. rewrite Hnone. reflexivity.
      * intros _. reflexivity.
Qed.

(** C10, witness: a reasoner made from an empty configuration, asked to
    classify. *)
Lemma reasoner_vector_only_for_classify_witness :
  SimpleReasoner.constructed Examples.reasoner
  /\ SimpleReasoner.get_output_size Examples.reasoner = 32
  /\ exists (res : dict) (g' : generator),
      SimpleReasoner.reason Examples.reasoner [] "classify"
        (ZeroNet.constant_generator fzero) = (Ok res, g')
      /\ exists v : vec,
          res !! "features" = Some (PTensor v)
          /\ length v = 32%nat
          /\ features_or_zeros Examples.reasoner res = Ok (PTensor v).
Proof.
  assert (Hc : SimpleReasoner.constructed Examples.reasoner)
    by (apply (SimpleReasoner.constructed_init (PDict ∅)); reflexivity).
  split; [exact Hc |].
  apply (reasoner_vector_only_for_classify Examples.reasoner [] "classify"
           (ZeroNet.constant_generator fzero) Hc).
Defined.

(** ** The robustness score *)

Lemma np_equal_spec (a b : list Z) :
  length a = length b ->
  exists m, np_equal a b = Ok m
            /\ length m = length a
            /\ (forallb (fun x : bool => x) m = true <-> a = b).
Proof.
  revert b. induction a as [| x a IH]; intros [| y b] Hlen;
    try discriminate Hlen.
  - exists []. repeat split.
  - injection Hlen as Hlen. destruct (IH b Hlen) as (m & Hm & Hl & Hall).
    exists ((x =? y) :: m). simpl. rewrite Hm. simpl.
    split; [reflexivity |]. split; [now rewrite Hl |].
    rewrite andb_true_iff, Z.eqb_eq, Hall. split.
    + intros [-> ->]. reflexivity.
    + intros Heq. injection Heq as -> ->. split; reflexivity.
Qed.

Lemma count_true_le (m : list bool) :
  (length (List.filter (fun x : bool => x) m) <= length m)%nat.
Proof.
  induction m as [| [] m IH]; simpl; lia.
Qed.

Lemma count_true_all (m : list bool) :
  length (List.filter (fun x : bool => x) m) = length m
  <-> forallb (fun x : bool => x) m = true.
Proof.
  induction m as [| [] m IH]; simpl.
  - split; reflexivity.
  - rewrite <- IH. split; lia.
  - pose proof (count_true_le m). split; [lia | discriminate].
Qed.

(** The formula of the score, [np.mean(original_preds == perturbed_preds)]:
    for two prediction arrays of one length, not empty, it is a number in
    [0,1], and it is 1 exactly when the two arrays are equal. *)
Lemma consistency_in_unit_interval :
  forall original_preds perturbed_preds : list Z,
    length original_preds = length perturbed_preds ->
    original_preds <> [] ->
    exists q : Q,
      consistency original_preds perturbed_preds = Ok (FFinite q)
      /\ (0 <= q)%Q /\ (q <= 1)%Q
      /\ ((q == 1)%Q <-> original_preds = perturbed_preds).
Proof.
  intros a b Hlen Hne.
  destruct (np_equal_spec a b Hlen) as (m & Hm & Hl & Hall).
  unfold consistency. rewrite Hm. simpl.
  destruct m as [| c m].
  { destruct a; [contradiction | discriminate Hl]. }
  set (k := length (List.filter (fun x : bool => x) (c :: m))).
  set (n := length (c :: m)).
  assert (Hk : (k <= n)%nat) by apply count_true_le.
  assert (Hn : (0 < n)%nat) by (unfold n; simpl; lia).
  assert (Hpos : Z.pos (Pos.of_nat n) = Z.of_nat n).
  { destruct n as [| n']; [lia |].
    rewrite <- Pos.of_nat_succ, Zpos_P_of_succ_nat. lia. }
  exists (Qred (Z.of_nat k # Pos.of_nat n)).
  split; [reflexivity |].
  rewrite !Qred_correct.
  unfold Qle, Qeq. simpl Qnum. simpl Qden.
  rewrite Hpos. repeat split; try lia.
  - intros Heq. apply Hall. apply count_true_all. fold k n. lia.
  - intros Heq. apply Hall in Heq. apply count_true_all in Heq.
    fold k n in Heq. lia.
Qed.

(** C9 (the code departs from it): [evaluate] produces no robustness score.
    On an instance whose trained flag is set it raises AttributeError in its
    first call of [predict], where [self.eval] is looked up and neither
    class defines it, for every input and every library, and so does
    [_calculate_robustness_score] called by itself, after drawing its noise;
    on no instance at all, trained or not, does [evaluate] return a
    report. *)
Theorem evaluate_returns_no_robustness_score :
  forall (L : Library) (self : object (nn_Module L)) (X : features)
         (y : list Z) (w : world (Mem L)),
    evaluate (set_is_trained true self) X y w
    = (Raise (no_attribute "eval"), w)
    /\ fst (_calculate_robustness_score (set_is_trained true self) X y w)
       = Raise (no_attribute "eval")
    /\ is_ok (fst (evaluate self X y w)) = false
    /\ is_ok (fst (_calculate_robustness_score self X y w)) = false.
Proof.
  intros L self X y w. split; [reflexivity |]. split; [reflexivity |].
  unfold evaluate, _calculate_robustness_score, predict, bind.
  destruct (is_trained self); split; reflexivity.
Qed.

(** The instance of Scenario A with the flag [fit] sets, on the two
    instances of four features. *)
Example evaluate_on_trained_scenario_A :
  evaluate (L := ZeroNet.library) Examples.trained Examples.X4 Examples.y2
    ZeroNet.initial_world
  = (Raise (no_attribute "eval"), ZeroNet.initial_world).
Proof. reflexivity. Qed.

(** ** Training *)

(** The batch loop as it is written: when the encoder refuses a batch, as
    a first layer built for the configured input dimension does with rows of
    another width, the batch ends there, after [optimizer.zero_grad()] and
    before [loss.backward()] and [optimizer.step()]. *)
Lemma train_batch_stops_at_encoder_error {L : Library}
    (self : object (nn_Module L)) (optimizer : Optimizer L)
    (criterion : Criterion L) (total_loss : pyfloat) (batch_X : mat)
    (batch_y : list Z) (w w1 w2 : world (Mem L)) (e : exn) :
  call (zero_grad L optimizer) w = (Ok tt, w1) ->
  call (module_call L (neural_network self) batch_X) w1 = (Raise e, w2) ->
  train_batch self optimizer criterion total_loss (batch_X, batch_y) w
  = (Raise e, w2).
Proof.
  intros Hzero Henc. unfold train_batch, _forward_pass, bind.
  rewrite Hzero, Henc. reflexivity.
Qed.

(** C6 (the code departs from it): [fit] raises AttributeError where
    [self.parameters] is looked up, which neither class defines, for every
    instance, every input and every library, before any library call and
    before the input is looked at.  Rows of another width than the
    configured one are not answered with a dimension error: they get the
    exception that rows of the configured width get. *)
Theorem fit_raises_AttributeError_whatever_the_width :
  forall (L : Library) (self : object (nn_Module L)) (X : features)
         (y : list Z) (w : world (Mem L)),
    fit self X y w = (Raise (no_attribute "parameters"), w).
Proof. intros L self X y w. reflexivity. Qed.

(** The instance of Scenario A, made for four input features, fitted on
    rows of three features and on rows of four. *)
Example fit_on_three_and_on_four_features :
  fit (L := ZeroNet.library) Examples.untrained Examples.X3 Examples.y2
    ZeroNet.initial_world
  = (Raise (no_attribute "parameters"), ZeroNet.initial_world)
  /\ fit (L := ZeroNet.library) Examples.untrained Examples.X4 Examples.y2
       ZeroNet.initial_world
     = (Raise (no_attribute "parameters"), ZeroNet.initial_world).
Proof. split; reflexivity. Qed.

(** ** Further properties *)

(** ** Laws of the monad *)

Lemma bind_cong {L A B} (c1 c2 : M L A) (k1 k2 : A -> M L B)
    (w : world (Mem L)) :
  c1 w = c2 w -> (forall a w', k1 a w' = k2 a w') ->
  bind c1 k1 w = bind c2 k2 w.
Proof.
  intros Hc Hk. unfold bind. rewrite Hc.
  destruct (c2 w) as [[a | e] w']; [apply Hk | reflexivity].
Qed.

Lemma bind_assoc {L A B C} (c : M L A) (k1 : A -> M L B) (k2 : B -> M L C)
    (w : world (Mem L)) :
  bind (bind c k1) k2 w = bind c (fun a => bind (k1 a) k2) w.
Proof. unfold bind. destruct (c w) as [[a | e] w']; reflexivity. Qed.

Lemma bind_ret_l {L A B} (a : A) (k : A -> M L B) (w : world (Mem L)) :
  bind (ret a) k w = k a w.
Proof. reflexivity. Qed.

Lemma bind_ok_l {L A B} (a : A) (k : A -> M L B) (w : world (Mem L)) :
  bind (of_result (Ok a)) k w = k a w.
Proof. reflexivity. Qed.

Lemma bind_never_ok {L A B} (c : M L A) (k : A -> M L B) (w : world (Mem L)) :
  (forall a w', is_ok (fst (k a w')) = false) ->
  is_ok (fst (bind c k w)) = false.
Proof.
  intros Hk. unfold bind.
  destruct (c w) as [[a | e] w']; [apply Hk | reflexivity].
Qed.

Lemma for_each_ext_in {L A S} (l : list A) (b1 b2 : S -> A -> M L S) :
  (forall x, In x l -> forall s w, b1 s x w = b2 s x w) ->
  forall s w, for_each l b1 s w = for_each l b2 s w.
Proof.
  unfold for_each. induction l as [| x l IH]; intros Hb s w; [reflexivity |].
  simpl. apply bind_cong.
  - apply Hb. left. reflexivity.
  - intros s' w'. apply IH. intros y Hy. apply Hb. right. exact Hy.
Qed.

Lemma world_eta {Mem} (w : world Mem) :
  {| torch_mem := torch_mem w; torch_generator := torch_generator w;
     numpy_generator := numpy_generator w |} = w.
Proof. destruct w; reflexivity. Qed.

(** ** Subscripts in range *)

Lemma subscript_nat (l : list pyval) (k : nat) (x : pyval) :
  nth_error l k = Some x -> py_subscript (PList l) (Z.of_nat k) = Ok x.
Proof.
  intros Hk. unfold py_subscript, list_index.
  assert (k < length l)%nat by (apply nth_error_Some; congruence).
  replace (0 <=? Z.of_nat k) with true by (symmetry; apply Z.leb_le; lia).
  replace (Z.of_nat k <? Z.of_nat (length l)) with true
    by (symmetry; apply Z.ltb_lt; lia).
  simpl. rewrite Nat2Z.id, Hk. reflexivity.
Qed.

Lemma nth_error_last (l : list pyval) (d : pyval) :
  l <> [] -> nth_error l (length l - 1) = Some (List.last l d).
Proof.
  induction l as [| x l IH]; intros Hne; [contradiction |].
  destruct l as [| y l]; [reflexivity |].
  specialize (IH ltac:(discriminate)).
  replace (length (x :: y :: l) - 1)%nat with (S (length (y :: l) - 1))
    by (simpl; lia).
  cbn [nth_error]. exact IH.
Qed.

Lemma subscript_last (h0 : pyval) (rest : list pyval) :
  py_subscript (PList (h0 :: rest)) (-1) = Ok (List.last (h0 :: rest) h0).
Proof.
  pose proof (nth_error_last (h0 :: rest) h0 ltac:(discriminate)) as Hn.
  unfold py_subscript, list_index.
  change (0 <=? -1) with false. change (-1 <? 0) with true. cbn [andb].
  destruct (Z.leb_spec (- Z.of_nat (length (h0 :: rest))) (-1)) as [_ | H];
    [| simpl length in H; lia].
  replace (Z.to_nat (Z.of_nat (length (h0 :: rest)) + -1))
    with (length (h0 :: rest) - 1)%nat by lia.
  rewrite Hn. reflexivity.
Qed.

Lemma in_py_range (n i : Z) : In i (py_range n) -> 0 <= i < n.
Proof.
  unfold py_range. rewrite in_map_iff. intros (k & <- & Hk).
  apply in_seq in Hk. lia.
Qed.

Lemma tensor_row_in_range (X : mat) (i : Z) :
  0 <= i < Z.of_nat (length X) -> exists row, tensor_row X i = Ok row.
Proof.
  intros Hi. unfold tensor_row, list_index.
  replace (0 <=? i) with true by (symmetry; apply Z.leb_le; lia).
  replace (i <? Z.of_nat (length X)) with true
    by (symmetry; apply Z.ltb_lt; lia).
  simpl. destruct (nth_error X (Z.to_nat i)) as [row |] eqn:Hn.
  - exists row. reflexivity.
  - apply nth_error_None in Hn. lia.
Qed.

(** ** The encoder *)

Section Encoder.
Context {L : Library}.

(** The loop over [range(len(hidden_layers) - 1)], started at any position
    of the list, visits the pairs of neighbours that follow. *)
Lemma hidden_loop_visits_neighbours (pre suf : list pyval) :
  suf <> [] ->
  forall (acc : list (nn_Module L)) (w : world (Mem L)),
    for_each (map Z.of_nat (seq (length pre) (length suf - 1)))
      (fun layers i =>
         bind (of_result (py_subscript (PList (pre ++ suf)) i)) (fun a =>
         bind (of_result (py_subscript (PList (pre ++ suf)) (i + 1))) (fun b =>
         bind (call (nn_Linear L a b)) (fun l =>
         bind (call (nn_ReLU L)) (fun r =>
         bind (call (nn_Dropout L (FFinite (1 # 5)))) (fun d =>
         ret (layers ++ [l; r; d])%list))))))
      acc w
    = for_each (adjacent_pairs suf) linear_block acc w.
Proof.
  revert pre. induction suf as [| a suf IH]; intros pre Hne acc w;
    [contradiction |].
  destruct suf as [| b suf]; [reflexivity |].
  replace (length (a :: b :: suf) - 1)%nat with (S (length (b :: suf) - 1))
    by (simpl; lia).
  simpl seq. simpl map. simpl adjacent_pairs.
  match goal with |- for_each _ ?b _ _ = _ => set (step := b) end.
  unfold for_each. simpl for_each_loop.
  apply bind_cong.
  - subst step. cbv beta. unfold linear_block. simpl fst. simpl snd.
    rewrite (subscript_nat (pre ++ a :: b :: suf) (length pre) a)
      by (rewrite nth_error_app2 by lia; rewrite Nat.sub_diag; reflexivity).
    replace (Z.of_nat (length pre) + 1) with (Z.of_nat (S (length pre)))
      by lia.
    rewrite (subscript_nat (pre ++ a :: b :: suf) (S (length pre)) b)
      by (rewrite nth_error_app2 by lia;
          replace (S (length pre) - length pre)%nat with 1%nat by lia;
          reflexivity).
    reflexivity.
  - intros acc' w'.
    specialize (IH (pre ++ [a])%list ltac:(discriminate) acc' w').
    rewrite <- app_assoc in IH. simpl in IH.
    rewrite length_app in IH. simpl in IH.
    replace (length pre + 1)%nat with (S (length pre)) in IH by lia.
    exact IH.
Qed.

End Encoder.

(** X3: for a non-empty list of hidden sizes h0, ..., hn,
    [_build_neural_network] builds, in this order, one block of Linear, ReLU
    and Dropout for the sizes (input_size, h0) and for every pair of
    neighbours (h0, h1), ..., then Linear(hn, hn) and a ReLU, and hands them
    to nn.Sequential; the indices it computes never leave the list. *)
Theorem encoder_blocks_follow_neighbouring_sizes :
  forall (L : Library) (input_size h0 : pyval) (rest : list pyval)
         (w : world (Mem L)),
    _build_neural_network input_size (PList (h0 :: rest)) w
    = bind (for_each ((input_size, h0) :: adjacent_pairs (h0 :: rest))
              linear_block [])
        (fun layers =>
         bind (call (nn_Linear L (List.last (h0 :: rest) h0)
                                 (List.last (h0 :: rest) h0)))
           (fun l =>
            bind (call (nn_ReLU L))
              (fun r => call (nn_Sequential L (layers ++ [l; r])%list)))) w.
Proof.
  intros L input_size h0 rest w.
  unfold _build_neural_network.
  change (py_subscript (PList (h0 :: rest)) 0) with (Ok (A := pyval) h0).
  rewrite subscript_last.
  change (py_len (PList (h0 :: rest)))
    with (Ok (Z.of_nat (length (h0 :: rest)))).
  rewrite bind_ok_l.
  unfold for_each at 2. cbn [for_each_loop].
  rewrite bind_assoc. unfold linear_block at 1. cbn [fst snd].
  rewrite !bind_assoc.
  apply bind_cong; [reflexivity |]. intros l0 w1.
  rewrite !bind_assoc.
  apply bind_cong; [reflexivity |]. intros r0 w2.
  rewrite !bind_assoc.
  apply bind_cong; [reflexivity |]. intros d0 w3.
  rewrite bind_ok_l, bind_ret_l.
  apply bind_cong.
  - replace (py_range (Z.of_nat (length (h0 :: rest)) - 1))
      with (map Z.of_nat
              (seq (length (@nil pyval)) (length (h0 :: rest) - 1))).
    + apply (hidden_loop_visits_neighbours [] (h0 :: rest)). discriminate.
    + unfold py_range. simpl length. f_equal. f_equal. lia.
  - intros layers w4. rewrite !bind_ok_l. reflexivity.
Qed.

(** ** The forward pass *)

Lemma classify_vector_ignores_facts (r : SimpleReasoner.t)
    (facts facts' : list dict) (g : generator) :
  match SimpleReasoner.reason r facts "classify" g with
  | (Ok res, g1) => (features_or_zeros r res, g1)
  | (Raise e, g1) => (Raise e, g1)
  end
  = match SimpleReasoner.reason r facts' "classify" g with
    | (Ok res, g1) => (features_or_zeros r res, g1)
    | (Raise e, g1) => (Raise e, g1)
    end.
Proof.
  unfold SimpleReasoner.reason. simpl. unfold torch_randn.
  destruct (SimpleReasoner.output_size r <? 0) eqn:Hneg; [reflexivity |].
  destruct (draw _ g) as [v g1].
  unfold features_or_zeros, SimpleReasoner.get_output_size, torch_zeros,
    dict_get.
  rewrite Hneg. simpl. rewrite !lookup_insert_eq. reflexivity.
Qed.

Section ForwardPass.
Context {L : Library}.

(** The symbolic step of the loop gives the same vector whatever row it is
    run on. *)
Lemma symbolic_step_ignores_row (self : object (nn_Module L))
    (row row' : vec) (acc : list pyval) (w : world (Mem L)) :
  bind (with_torch_generator
          (SimpleReasoner.reason (symbolic_reasoner self)
             [ {[ "features" := PTensor row ]} ] "classify"))
    (fun so => bind (of_result (features_or_zeros (symbolic_reasoner self) so))
       (fun v => ret (acc ++ [v])%list)) w
  = bind (with_torch_generator
          (SimpleReasoner.reason (symbolic_reasoner self)
             [ {[ "features" := PTensor row' ]} ] "classify"))
    (fun so => bind (of_result (features_or_zeros (symbolic_reasoner self) so))
       (fun v => ret (acc ++ [v])%list)) w.
Proof.
  pose proof (classify_vector_ignores_facts (symbolic_reasoner self)
                [ {[ "features" := PTensor row ]} ]
                [ {[ "features" := PTensor row' ]} ]
                (torch_generator w)) as H.
  unfold bind, with_torch_generator.
  destruct (SimpleReasoner.reason _ [ {[ "features" := PTensor row ]} ] _ _)
    as [[res | e] g1];
    destruct (SimpleReasoner.reason _ [ {[ "features" := PTensor row' ]} ] _ _)
      as [[res' | e'] g1'].
  - injection H as H ->. unfold of_result. rewrite H. reflexivity.
  - injection H as H ->. unfold of_result. rewrite H. reflexivity.
  - injection H as H ->. unfold of_result. rewrite <- H. reflexivity.
  - injection H as -> ->. reflexivity.
Qed.

End ForwardPass.

(** X4: on a batch without rows the forward pass calls the encoder and then
    stops at [torch.stack], which is handed an empty list: the reasoner is
    not queried, the fusion layer is not called, and no output is
    returned. *)
Theorem forward_pass_of_empty_batch_raises :
  forall (L : Library) (self : object (nn_Module L)) (w : world (Mem L)),
    _forward_pass self [] w
    = match call (module_call L (neural_network self) []) w with
      | (Ok _, w1) =>
          (Raise (Exn RuntimeError "stack expects a non-empty TensorList"), w1)
      | (Raise e, w1) => (Raise e, w1)
      end.
Proof.
  intros L self w. unfold _forward_pass, bind.
  destruct (call _ w) as [[nf | e] w1]; reflexivity.
Qed.

(** X5: the forward pass reads the input rows through the encoder only.
    The symbolic features are samples of torch's generator that do not
    depend on the row the reasoner is given: two batches of the same number
    of rows on which the encoder does the same give the same outputs, the
    same exception if any, and the same final state. *)
Theorem forward_pass_reads_rows_through_encoder_only :
  forall (L : Library) (self : object (nn_Module L)) (X X' : mat)
         (w : world (Mem L)),
    length X = length X' ->
    call (module_call L (neural_network self) X) w
    = call (module_call L (neural_network self) X') w ->
    _forward_pass self X w = _forward_pass self X' w.
Proof.
  intros L self X X' w Hlen Henc. unfold _forward_pass.
  apply bind_cong; [exact Henc |]. intros nf w1.
  apply bind_cong; [| reflexivity].
  rewrite <- Hlen. apply for_each_ext_in.
  intros i Hi acc w2. apply in_py_range in Hi.
  destruct (tensor_row_in_range X i Hi) as [row Hrow].
  destruct (tensor_row_in_range X' i ltac:(rewrite <- Hlen; exact Hi))
    as [row' Hrow'].
  unfold bind at 1. rewrite Hrow. simpl.
  unfold bind at 4. rewrite Hrow'. simpl.
  apply symbolic_step_ignores_row.
Qed.

(** X5, witness: two batches of two finite rows each, on which the encoder
    of the executable library gives the same features. *)
Lemma forward_pass_reads_rows_through_encoder_only_witness :
  _forward_pass (L := ZeroNet.library) Examples.untrained
    [[Examples.f 1; Examples.f 2; Examples.f 3; Examples.f 4];
     [Examples.f 0; Examples.f 0; Examples.f 1; Examples.f 1]]
    ZeroNet.initial_world
  = _forward_pass (L := ZeroNet.library) Examples.untrained
      [[Examples.f 5; Examples.f 6; Examples.f 7; Examples.f 8];
       [Examples.f 9; Examples.f 9; Examples.f 9; Examples.f 9]]
      ZeroNet.initial_world.
Proof.
  apply (forward_pass_reads_rows_through_encoder_only ZeroNet.library
           Examples.untrained).
  - reflexivity.
  - vm_compute. reflexivity.
Defined.

(** X6: with an integration method other than 'late_fusion' and
    'attention_fusion' the forward pass returns no output, on any batch and
    in any state: whatever the encoder and the reasoner do, neither branch
    assigns [outputs]. *)
Theorem forward_pass_unknown_method_returns_nothing :
  forall (L : Library) (self : object (nn_Module L)) (X : mat)
         (w : world (Mem L)),
    py_eq_str (integration_method self) "late_fusion" = false ->
    py_eq_str (integration_method self) "attention_fusion" = false ->
    is_ok (fst (_forward_pass self X w)) = false
    /\ forall nf w1 so w2 st,
         call (module_call L (neural_network self) X) w = (Ok nf, w1) ->
         for_each (py_range (Z.of_nat (length X)))
           (fun symbolic_outputs i =>
              bind (of_result (tensor_row X i)) (fun row =>
              bind (with_torch_generator
                      (SimpleReasoner.reason (symbolic_reasoner self)
                         [ {[ "features" := PTensor row ]} ] "classify"))
                (fun symbolic_output =>
              bind (of_result (features_or_zeros (symbolic_reasoner self)
                                 symbolic_output)) (fun v =>
              ret (symbolic_outputs ++ [v])%list))))
           [] w1 = (Ok so, w2) ->
         torch_stack so = Ok st ->
         _forward_pass self X w
         = (Raise (Exn UnboundLocalError
              "local variable 'outputs' referenced before assignment"), w2).
Proof.
  intros L self X w H1 H2. split.
  - unfold _forward_pass. rewrite H1, H2.
    do 3 (apply bind_never_ok; intros ? ?). reflexivity.
  - intros nf w1 so w2 st Henc Hloop Hstack.
    unfold _forward_pass. rewrite H1, H2.
    unfold bind at 1. rewrite Henc.
    unfold bind at 1. rewrite Hloop.
    unfold bind at 1. rewrite Hstack. reflexivity.
Qed.

(** X6, witness: Scenario A with the method "early_fusion". *)
Lemma forward_pass_unknown_method_returns_nothing_witness :
  py_eq_str (integration_method early_fusion_instance) "late_fusion" = false
  /\ py_eq_str (integration_method early_fusion_instance) "attention_fusion"
     = false
  /\ is_ok (fst (_forward_pass (L := ZeroNet.library) early_fusion_instance
                   (rows Examples.X4) ZeroNet.initial_world)) = false
  /\ exists w2,
       _forward_pass (L := ZeroNet.library) early_fusion_instance
         (rows Examples.X4) ZeroNet.initial_world
       = (Raise (Exn UnboundLocalError
            "local variable 'outputs' referenced before assignment"), w2).
Proof.
  split; [reflexivity |]. split; [reflexivity |].
  destruct (forward_pass_unknown_method_returns_nothing ZeroNet.library
              early_fusion_instance (rows Examples.X4) ZeroNet.initial_world
              eq_refl eq_refl) as [Hnone Hexn].
  split; [exact Hnone |].
  eexists. eapply Hexn; vm_compute; reflexivity.
Defined.

(** ** Explanations *)

Lemma get_symbolic_reasoning_nonempty {L : Library}
    (self : object (nn_Module L)) (X : features) (w : world (Mem L)) :
  rows X <> [] ->
  _get_symbolic_reasoning self X w = (Ok canned_symbolic_reasoning, w).
Proof.
  intros Hne. unfold _get_symbolic_reasoning, bind.
  destruct (rows X) as [| row rest] eqn:Hrows; [contradiction |].
  simpl. unfold with_torch_generator. simpl. rewrite world_eta.
  unfold ret, canned_symbolic_reasoning, dict_get.
  repeat f_equal.
Qed.

(** X7: [_get_symbolic_reasoning] returns the same dictionary for every
    instance and every input that has a first row (method "symbolic_rules",
    the rules rule_1 and rule_2, three steps, confidence 0.85), draws no
    random sample and leaves the state as it was; without a first row the
    subscript [X[0]] raises IndexError. *)
Theorem symbolic_reasoning_is_independent_of_input :
  forall (L : Library) (self : object (nn_Module L)) (X : features)
         (w : world (Mem L)),
    _get_symbolic_reasoning self X w
    = match rows X with
      | [] => (Raise (Exn IndexError "index out of range"), w)
      | _ :: _ => (Ok canned_symbolic_reasoning, w)
      end.
Proof.
  intros L self X w. destruct (rows X) as [| row rest] eqn:Hrows.
  - unfold _get_symbolic_reasoning, bind. rewrite Hrows. reflexivity.
  - apply get_symbolic_reasoning_nonempty. rewrite Hrows. discriminate.
Qed.

(** X11: the combined explanation of [explain].  Built from a neural
    importance dictionary and the result of [_get_symbolic_reasoning], it
    holds the dictionary's 'most_important' entry as 'primary_features',
    the rules rule_1 and rule_2, the confidence 0.85 and the method
    'neuro_symbolic_fusion', for every instance and input with a first
    row; a neural importance without 'most_important' gives KeyError. *)
Theorem combined_explanation_of_symbolic_reasoning :
  forall (L : Library) (self : object (nn_Module L)) (X : features)
         (ni : dict) (w : world (Mem L)),
    rows X <> [] ->
    match ni !! "most_important" with
    | Some m =>
        exists d : dict,
          bind (_get_symbolic_reasoning self X) (_combine_explanations ni) w
          = (Ok d, w)
          /\ d !! "primary_features" = Some m
          /\ d !! "symbolic_rules" = Some (PList [PStr "rule_1"; PStr "rule_2"])
          /\ d !! "confidence" = Some (PFloat (FFinite (17 # 20)))
          /\ d !! "method" = Some (PStr "neuro_symbolic_fusion")
    | None =>
        bind (_get_symbolic_reasoning self X) (_combine_explanations ni) w
        = (Raise (Exn KeyError "most_important"), w)
    end.
Proof.
  intros L self X ni w Hne.
  destruct (ni !! "most_important") as [m |] eqn:Hm;
    unfold bind at 1; rewrite get_symbolic_reasoning_nonempty by exact Hne;
    unfold _combine_explanations, bind, dict_item; rewrite Hm;
    [| reflexivity].
  simpl. unfold canned_symbolic_reasoning.
  rewrite lookup_insert_ne by discriminate. rewrite lookup_insert_eq. simpl.
  rewrite !lookup_insert_ne by discriminate. rewrite lookup_insert_eq. simpl.
  eexists. split; [reflexivity |].
  repeat split.
Qed.

(** X11, witness: the input of Scenario A and a neural importance naming
    the first feature. *)
Lemma combined_explanation_of_symbolic_reasoning_witness :
  rows Examples.X4 <> []
  /\ exists d : dict,
      bind (L := ZeroNet.library)
        (_get_symbolic_reasoning (L := ZeroNet.library) Examples.untrained
           Examples.X4)
        (_combine_explanations (L := ZeroNet.library)
           (<["most_important" := PStr "feature_0"]> ∅))
        ZeroNet.initial_world
      = (Ok d, ZeroNet.initial_world)
      /\ d !! "primary_features" = Some (PStr "feature_0")
      /\ d !! "symbolic_rules" = Some (PList [PStr "rule_1"; PStr "rule_2"])
      /\ d !! "confidence" = Some (PFloat (FFinite (17 # 20)))
      /\ d !! "method" = Some (PStr "neuro_symbolic_fusion").
Proof.
  split; [discriminate |].
  pose proof (combined_explanation_of_symbolic_reasoning ZeroNet.library
                Examples.untrained Examples.X4
                (<["most_important" := PStr "feature_0"]> ∅)
                ZeroNet.initial_world ltac:(discriminate)) as H.
  rewrite lookup_insert_eq in H. exact H.
Defined.

(** ** The reasoner *)

Lemma init_config_is_dict (cfg : pyval) (r : SimpleReasoner.t) :
  SimpleReasoner.__init__ cfg = Ok r ->
  exists d, cfg = PDict d
    /\ r = {| SimpleReasoner.config := PDict d;
              SimpleReasoner.knowledge_base := PNone;
              SimpleReasoner.rules := dict_get d "rules" (PList []);
              SimpleReasoner.output_size := 32 |}.
Proof.
  unfold SimpleReasoner.__init__. destruct cfg; simpl; try discriminate.
  intros H. injection H as <-. eexists; split; reflexivity.
Qed.

(** X8: [explain_reasoning] applied to what [reason] returns.  Only the
    result of an "explain_classification" query can be explained, as
    "Applied 2 rules with 3 steps"; the result of any other query, that of
    "classify" included, has no 'steps' entry and gives KeyError. *)
Theorem explain_reasoning_needs_an_explain_query :
  forall (r : SimpleReasoner.t) (facts : list dict) (query : string)
         (g g' : generator) (res : dict),
    SimpleReasoner.reason r facts query g = (Ok res, g') ->
    SimpleReasoner.explain_reasoning res
    = if String.eqb query "explain_classification"
      then Ok "Applied 2 rules with 3 steps"
      else Raise (Exn KeyError "steps").
Proof.
  intros r facts query g g' res.
  unfold SimpleReasoner.reason.
  destruct (String.eqb_spec query "classify") as [-> | Hc].
  - simpl. destruct (torch_randn _ g) as [[v | e] g1]; [| discriminate].
    intros [= <- <-]. unfold SimpleReasoner.explain_reasoning.
    rewrite lookup_insert_ne by discriminate.
    rewrite lookup_insert_ne by discriminate.
    rewrite lookup_insert_ne by discriminate.
    rewrite lookup_insert_eq. simpl.
    rewrite !lookup_insert_ne by discriminate. rewrite lookup_empty.
    reflexivity.
  - destruct (String.eqb query "explain_classification").
    + intros [= <- <-]. unfold SimpleReasoner.explain_reasoning.
      rewrite !lookup_insert_ne by discriminate.
      rewrite lookup_insert_eq. simpl.
      rewrite lookup_insert_ne by discriminate.
      rewrite lookup_insert_eq. reflexivity.
    + intros [= <- <-]. unfold SimpleReasoner.explain_reasoning.
      rewrite !lookup_insert_ne by discriminate.
      rewrite lookup_insert_eq. simpl.
      rewrite !lookup_insert_ne by discriminate. rewrite lookup_empty.
      reflexivity.
Qed.

(** X8, witness: the query "explain_classification" without facts. *)
Lemma explain_reasoning_needs_an_explain_query_witness :
  exists (res : dict) (g' : generator),
    SimpleReasoner.reason Examples.reasoner [] "explain_classification"
      (ZeroNet.constant_generator fzero) = (Ok res, g')
    /\ SimpleReasoner.explain_reasoning res
       = Ok "Applied 2 rules with 3 steps".
Proof.
  eexists. eexists. split; [reflexivity |].
  apply (explain_reasoning_needs_an_explain_query Examples.reasoner []
           "explain_classification" (ZeroNet.constant_generator fzero)
           (ZeroNet.constant_generator fzero)).
  reflexivity.
Defined.

(** X9: [add_knowledge] appends.  On a reasoner whose rules are a list,
    adding two pieces of knowledge whose 'rules' default to the lists d1
    and d2 (a missing key counts as the empty list) succeeds, leaves
    rules ++ d1 ++ d2 in this order, keeps the output size, and gives the
    same reasoner as adding d1 ++ d2 at once. *)
Theorem add_knowledge_appends_in_order :
  forall (r : SimpleReasoner.t) (xs d1 d2 : list pyval) (k1 k2 : dict),
    SimpleReasoner.rules r = PList xs ->
    dict_get k1 "rules" (PList []) = PList d1 ->
    dict_get k2 "rules" (PList []) = PList d2 ->
    exists r1 r2,
      SimpleReasoner.add_knowledge r k1 = Ok r1
      /\ SimpleReasoner.add_knowledge r1 k2 = Ok r2
      /\ SimpleReasoner.rules r2 = PList (xs ++ d1 ++ d2)
      /\ SimpleReasoner.get_output_size r2 = SimpleReasoner.get_output_size r
      /\ SimpleReasoner.add_knowledge r (<["rules" := PList (d1 ++ d2)]> k1)
         = Ok r2.
Proof.
  intros r xs d1 d2 k1 k2 Hrules H1 H2.
  unfold SimpleReasoner.add_knowledge.
  rewrite Hrules, H1. simpl.
  eexists. eexists. split; [reflexivity |]. simpl. rewrite H2. simpl.
  split; [reflexivity |]. simpl.
  split; [rewrite <- app_assoc; reflexivity |].
  split; [reflexivity |].
  unfold dict_get. rewrite lookup_insert_eq. simpl. rewrite <- app_assoc.
  f_equal. f_equal.
  destruct (SimpleReasoner.config r) as [| | | | | d |]; try reflexivity.
  destruct (d !! "rules") eqn:Hd.
  - rewrite lookup_insert_eq. rewrite insert_insert_eq. reflexivity.
  - rewrite Hd. reflexivity.
Qed.

(** X9, witness: one rule added, then knowledge without a 'rules' key. *)
Lemma add_knowledge_appends_in_order_witness :
  exists r1 r2,
    SimpleReasoner.add_knowledge Examples.reasoner
      (<["rules" := PList [PStr "rule_a"]]> ∅) = Ok r1
    /\ SimpleReasoner.add_knowledge r1 (<["facts" := PList []]> ∅) = Ok r2
    /\ SimpleReasoner.rules r2 = PList ([] ++ [PStr "rule_a"] ++ [])
    /\ SimpleReasoner.get_output_size r2
       = SimpleReasoner.get_output_size Examples.reasoner
    /\ SimpleReasoner.add_knowledge Examples.reasoner
         (<["rules" := PList ([PStr "rule_a"] ++ [])]>
            (<["rules" := PList [PStr "rule_a"]]> ∅))
       = Ok r2.
Proof.
  apply (add_knowledge_appends_in_order Examples.reasoner []
           [PStr "rule_a"] [] (<["rules" := PList [PStr "rule_a"]]> ∅)
           (<["facts" := PList []]> ∅)).
  - reflexivity.
  - vm_compute. reflexivity.
  - vm_compute. reflexivity.
Defined.

(** X10: what holds of every reasoner the program can hold (made by
    [__init__], changed by [add_knowledge] only): its output size is 32,
    its knowledge base is never set, its configuration is a dictionary, and
    a 'rules' entry of the configuration is always the current rule list:
    [add_knowledge] changes the configuration it was constructed from. *)
Theorem reasoner_invariants :
  forall r : SimpleReasoner.t,
    SimpleReasoner.constructed r ->
    SimpleReasoner.get_output_size r = 32
    /\ SimpleReasoner.knowledge_base r = PNone
    /\ exists d : dict,
         SimpleReasoner.config r = PDict d
         /\ forall v, d !! "rules" = Some v -> v = SimpleReasoner.rules r.
Proof.
  induction 1 as [cfg r Hinit | r knowledge r' _ IH Hadd].
  - apply init_config_is_dict in Hinit as (d & -> & ->). simpl.
    repeat split. exists d. split; [reflexivity |].
    intros v Hv. unfold dict_get. rewrite Hv. reflexivity.
  - destruct IH as (Hsize & Hkb & d & Hcfg & Halias).
    unfold SimpleReasoner.add_knowledge in Hadd.
    destruct (SimpleReasoner.py_extend _ _) as [rs | e]; simpl in Hadd;
      [| discriminate].
    injection Hadd as <-. simpl. rewrite Hcfg.
    repeat split; try assumption.
    destruct (d !! "rules") as [old |] eqn:Hold.
    + exists (<["rules" := rs]> d). split; [reflexivity |].
      intros v. rewrite lookup_insert_eq. intros [= <-]. reflexivity.
    + exists d. split; [reflexivity |]. intros v. rewrite Hold. discriminate.
Qed.

(** X10, witness: the reasoner made from an empty configuration. *)
Lemma reasoner_invariants_witness :
  SimpleReasoner.constructed Examples.reasoner
  /\ SimpleReasoner.get_output_size Examples.reasoner = 32
  /\ SimpleReasoner.knowledge_base Examples.reasoner = PNone
  /\ exists d : dict,
       SimpleReasoner.config Examples.reasoner = PDict d
       /\ forall v, d !! "rules" = Some v
                    -> v = SimpleReasoner.rules Examples.reasoner.
Proof.
  assert (Hc : SimpleReasoner.constructed Examples.reasoner)
    by (apply (SimpleReasoner.constructed_init (PDict ∅)); reflexivity).
  split; [exact Hc |].
  apply (reasoner_invariants Examples.reasoner Hc).
Defined.

(** ** Attention fusion *)

Lemma cat_rows_none (a b : mat) : length a <> length b -> cat_rows a b = None.
Proof.
  revert b. induction a as [| r a IH]; intros [| s b] H; simpl in *;
    try reflexivity; try contradiction.
  rewrite IH by lia. reflexivity.
Qed.

(** X12: [AttentionFusion.forward] on neural and symbolic features of
    different numbers of rows raises the RuntimeError of [torch.cat] before
    the attention layer or the output layer is called; the state is as it
    was. *)
Theorem attention_forward_needs_equal_batch_sizes :
  forall (L : Library) (self : AttentionFusion.t (nn_Module L))
         (neural_features symbolic_features : mat) (w : world (Mem L)),
    length neural_features <> length symbolic_features ->
    AttentionFusion.forward self neural_features symbolic_features w
    = (Raise (Exn RuntimeError
                "Sizes of tensors must match except in dimension 1"), w).
Proof.
  intros L self nf sf w H.
  unfold AttentionFusion.forward, bind, torch_cat_dim1.
  rewrite cat_rows_none by exact H. reflexivity.
Qed.

(** X12, witness: two rows of neural features, one row of symbolic ones. *)
Lemma attention_forward_needs_equal_batch_sizes_witness :
  length [repeat fzero 4; repeat fzero 4] <> length [repeat fzero 4]
  /\ AttentionFusion.forward (L := ZeroNet.library) small_attention_fusion
       [repeat fzero 4; repeat fzero 4] [repeat fzero 4]
       ZeroNet.initial_world
     = (Raise (Exn RuntimeError
                 "Sizes of tensors must match except in dimension 1"),
        ZeroNet.initial_world).
Proof.
  split; [discriminate |].
  apply (attention_forward_needs_equal_batch_sizes ZeroNet.library
           small_attention_fusion).
  discriminate.
Defined.

(** ** The width of the fusion layer *)

(** X13: the fusion layer is sized from the last hidden size h and the
    reasoner's output size.  For a reasoner the program can hold and a list
    of hidden sizes that ends in the integer h, late fusion starts with
    Linear(h + 32, 128), followed by ReLU, Dropout(0.2) and
    Linear(128, num_classes); attention fusion asks for a multi-head
    attention of embedding width h + 32 with 8 heads as its first library
    call, and fails with the library's exception when that is refused. *)
Theorem fusion_width_is_last_hidden_plus_32 :
  forall (L : Library) (h0 : pyval) (rest : list pyval) (h : Z)
         (sr : SimpleReasoner.t) (num_classes : pyval) (w : world (Mem L)),
    SimpleReasoner.constructed sr ->
    List.last (h0 :: rest) h0 = PInt h ->
    _build_integration_layer (PStr "late_fusion") (PList (h0 :: rest)) sr
      num_classes w
    = bind (call (nn_Linear L (PInt (h + 32)) (PInt 128))) (fun l1 =>
      bind (call (nn_ReLU L)) (fun r =>
      bind (call (nn_Dropout L (FFinite (1 # 5)))) (fun d =>
      bind (call (nn_Linear L (PInt 128) num_classes)) (fun l2 =>
      bind (call (nn_Sequential L [l1; r; d; l2])) (fun s =>
      ret (SequentialLayer s)))))) w
    /\ forall e w',
         call (nn_MultiheadAttention L (PInt (h + 32)) 8) w = (Raise e, w') ->
         _build_integration_layer (PStr "attention_fusion")
           (PList (h0 :: rest)) sr num_classes w
         = (Raise e, w').
Proof.
  intros L h0 rest h sr nc w Hsr Hlast.
  pose proof (constructed_output_size sr Hsr) as Hsize.
  unfold _build_integration_layer, SimpleReasoner.get_output_size.
  rewrite Hsize.
  change (py_eq_str (PStr "late_fusion") "late_fusion") with true.
  change (py_eq_str (PStr "attention_fusion") "late_fusion") with false.
  change (py_eq_str (PStr "attention_fusion") "attention_fusion") with true.
  cbv iota. rewrite subscript_last, Hlast. split.
  - rewrite bind_ok_l. cbn [py_add]. rewrite bind_ok_l. reflexivity.
  - intros e w' Hatt. rewrite bind_ok_l.
    unfold AttentionFusion.__init__. cbn [py_add].
    rewrite bind_assoc, bind_ok_l, bind_assoc.
    unfold bind at 1. rewrite Hatt. reflexivity.
Qed.

(** X13, witness: the hidden sizes 8 and 4 of Scenario A; an embedding of
    width 36 cannot be split over 8 heads. *)
Lemma fusion_width_is_last_hidden_plus_32_witness :
  SimpleReasoner.constructed Examples.reasoner
  /\ List.last [PInt 8; PInt 4] (PInt 8) = PInt 4
  /\ _build_integration_layer (L := ZeroNet.library) (PStr "attention_fusion")
       (PList [PInt 8; PInt 4]) Examples.reasoner (PInt 2)
       ZeroNet.initial_world
     = (Raise (Exn AssertionError "embed_dim must be divisible by num_heads"),
        ZeroNet.initial_world).
Proof.
  assert (Hc : SimpleReasoner.constructed Examples.reasoner)
    by (apply (SimpleReasoner.constructed_init (PDict ∅)); reflexivity).
  split; [exact Hc |]. split; [reflexivity |].
  apply (fusion_width_is_last_hidden_plus_32 ZeroNet.library (PInt 8)
           [PInt 4] 4 Examples.reasoner (PInt 2) ZeroNet.initial_world Hc
           eq_refl).
  reflexivity.
Defined.
